(** * lycheepy.cli: the data inspector and the CSW client

    A shallow embedding of
    - [src/app/pages/chains/components/detail/data.inspector.ts]
      (class [Inspector]) and
    - [src/app/services/csw.service.ts] (class [CswService]).

    JavaScript numbers, the GoJS geometry classes, the browser's canvas and
    input elements and the xml2js parser are libraries the two files call;
    they are collected in the classes [Platform] and [Browser] and in the
    parameters of section [Csw], and the code is modelled on top of them. *)

From Stdlib Require Import String Ascii List Bool Arith Lia ZArith.
From Stdlib Require Import DecimalString DecimalZ.
Import ListNotations.

Set Warnings "-register-all".

Local Open Scope string_scope.
Local Open Scope list_scope.

(** ** JavaScript objects used as maps

    An object literal is the list of its own enumerable properties in
    [for ... in] order; [lookup] is [o[k]], [assoc_set] is [o[k] = v]. *)

Section Objects.
Context {A : Type}.

Fixpoint lookup (k : string) (o : list (string * A)) : option A :=
  match o with
  | [] => None
  | (k', v) :: rest => if String.eqb k k' then Some v else lookup k rest
  end.

Fixpoint assoc_set (k : string) (v : A) (o : list (string * A))
  : list (string * A) :=
  match o with
  | [] => [(k, v)]
  | (k', v') :: rest =>
      if String.eqb k k' then (k', v) :: rest
      else (k', v') :: assoc_set k v rest
  end.

Definition keys (o : list (string * A)) : list string := map fst o.

Definition hasKey (k : string) (o : list (string * A)) : bool :=
  match lookup k o with Some _ => true | None => false end.
End Objects.

(** ** String.prototype.split with a one-character separator *)

Fixpoint split (sep : ascii) (s : string) : list string :=
  match s with
  | EmptyString => [EmptyString]
  | String c rest =>
      if Ascii.eqb c sep then EmptyString :: split sep rest
      else match split sep rest with
           | piece :: pieces => String c piece :: pieces
           | [] => [String c EmptyString]
           end
  end.

Definition space : ascii := " "%char.

(** ** The platform: JavaScript numbers and the GoJS geometry classes *)

Class Platform : Type := {
  (** IEEE doubles with [Number.prototype.toString] and [parseFloat];
      [num_falsy] holds of [0], [-0] and [NaN]. *)
  num : Type;
  num_toString : num -> string;
  parseFloat : string -> num;
  num_falsy : num -> bool;
  (** [go.Point], [go.Size], [go.Rect], [go.Spot], [go.Margin] with their
      static [stringify] and [parse]. *)
  Point : Type;
  Point_stringify : Point -> string;
  Point_parse : string -> Point;
  Size : Type;
  Size_stringify : Size -> string;
  Size_parse : string -> Size;
  Rect : Type;
  Rect_stringify : Rect -> string;
  Rect_parse : string -> Rect;
  Spot : Type;
  Spot_stringify : Spot -> string;
  Spot_parse : string -> Spot;
  Margin : Type;
  Margin_stringify : Margin -> string;
  Margin_parse : string -> Margin
}.

Section Values.
Context {P : Platform}.

(** The values a data record can hold. [VFunction] and [VObject] carry
    what their [toString()] returns. *)
Inductive jsval : Type :=
| VUndefined
| VNull
| VBool (b : bool)
| VNum (n : num)
| VStr (s : string)
| VFunction (src : string)
| VPoint (p : Point)
| VSize (s : Size)
| VRect (r : Rect)
| VSpot (s : Spot)
| VMargin (m : Margin)
| VList (items : list jsval)     (* go.List *)
| VArray (items : list jsval)
| VObject (repr : string).

(** Truthiness, as used by [defaultValue || ''] and [!data]. *)
Definition truthy (v : jsval) : bool :=
  match v with
  | VUndefined | VNull => false
  | VBool b => b
  | VNum n => negb (num_falsy n)
  | VStr s => negb (String.eqb s EmptyString)
  | _ => true
  end.

Definition is_undefined (v : jsval) : bool :=
  match v with VUndefined => true | _ => false end.

(** [data[name]] on a record. *)
Definition get (data : list (string * jsval)) (name : string) : jsval :=
  match lookup name data with Some v => v | None => VUndefined end.

(** [Inspector.convertToString]. The array loop puts one space between
    the converted elements, which is [String.concat " "]. *)
Fixpoint convertToString (x : jsval) : string :=
  match x with
  | VUndefined => "undefined"
  | VNull => "null"
  | VPoint p => Point_stringify p
  | VSize s => Size_stringify s
  | VRect r => Rect_stringify r
  | VSpot s => Spot_stringify s
  | VMargin m => Margin_stringify m
  | VList items => String.concat " " (map convertToString items)
  | VArray items => String.concat " " (map convertToString items)
  | VBool b => if b then "true" else "false"
  | VNum n => num_toString n
  | VStr s => s
  | VFunction src => src
  | VObject repr => repr
  end.

(** [Inspector.convertToArrayOfNumber]. *)
Definition convertToArrayOfNumber (propertyValue : string) : jsval :=
  if String.eqb propertyValue "null" then VNull
  else
    VArray
      (map (fun str => VNum (parseFloat str))
           (filter (fun str => negb (String.eqb str EmptyString))
                   (split space propertyValue))).

(** The boolean case of the commit switch:
    [!(value === false || value === 'false' || value === '0')]. *)
Definition strictEqFalse (value : jsval) : bool :=
  match value with VBool false => true | _ => false end.

Definition strictEqString (value : jsval) (s : string) : bool :=
  match value with VStr s' => String.eqb s' s | _ => false end.

Definition parseBoolean (value : jsval) : bool :=
  negb (strictEqFalse value
        || strictEqString value "false"
        || strictEqString value "0").

(** The type inferred from the stored value when none is declared. *)
Definition inferType (oldval : jsval) : string :=
  match oldval with
  | VBool _ => "boolean"
  | VNum _ => "number"
  | VPoint _ => "point"
  | VSize _ => "size"
  | VRect _ => "rect"
  | VSpot _ => "spot"
  | VMargin _ => "margin"
  | _ => EmptyString
  end.

(** The [switch (type)] of [updateAllProperties], applied to the string
    read from the input. *)
Definition convertValue (type : string) (value : string) : jsval :=
  if String.eqb type "boolean" then VBool (parseBoolean (VStr value))
  else if String.eqb type "number" then VNum (parseFloat value)
  else if String.eqb type "arrayofnumber" then convertToArrayOfNumber value
  else if String.eqb type "point" then VPoint (Point_parse value)
  else if String.eqb type "size" then VSize (Size_parse value)
  else if String.eqb type "rect" then VRect (Rect_parse value)
  else if String.eqb type "spot" then VSpot (Spot_parse value)
  else if String.eqb type "margin" then VMargin (Margin_parse value)
  else VStr value.
End Values.

(** ** The browser: canvas colour normalisation and input elements *)

Class Browser {P : Platform} : Type := {
  (** [ctx.fillStyle = v; return ctx.fillStyle] on a fresh 2d context. *)
  fillStyle : jsval -> string;
  (** [input.type] once the [type] attribute has been set to the string. *)
  inputType : string -> string;
  (** What an input of the given type holds after [input.value = v]
      (string coercion and the type's value sanitisation). *)
  assigned : string -> jsval -> string
}.

Section InspectorModel.
Context {P : Platform} {B : Browser}.

(** [Inspector.convertToColor]. *)
Definition convertToColor (propertyValue : jsval) : string :=
  fillStyle propertyValue.

(** *** The diagram and its model *)

Inductive partClass : Type := Node | Link | Group | Adornment.

(** What [inspectObject] can be handed: a [go.Part] or a plain data
    object (such as [Model.modelData]); the number is the identity. *)
Inductive objref : Type :=
| RPart (part : nat)
| RData (record : nat).

Definition objref_eqb (a b : objref) : bool :=
  match a, b with
  | RPart x, RPart y => Nat.eqb x y
  | RData x, RData y => Nat.eqb x y
  | _, _ => false
  end.

(** Calls received by the model, oldest first: its undo history. *)
Inductive modelOp : Type :=
| StartTransaction (label : string)
| SetDataProperty (record : nat) (name : string) (v : jsval)
| CommitTransaction (label : string).

Record Diagram : Type := mkDiagram {
  selection : list nat;                    (* diagram.selection *)
  isReadOnly : bool;                       (* diagram.model.isReadOnly *)
  parts : nat -> partClass * option nat;   (* class and [Part.data] *)
  records : nat -> list (string * jsval);  (* the data objects *)
  history : list modelOp
}.

(** [diagram.selection.first()]: the first selected part or [null]. *)
Definition selection_first (d : Diagram) : option objref :=
  match selection d with
  | [] => None
  | p :: _ => Some (RPart p)
  end.

(** [(o instanceof go.Part) ? o.data : o], [None] when that is falsy. *)
Definition dataOf (d : Diagram) (o : option objref) : option nat :=
  match o with
  | None => None
  | Some (RData r) => Some r
  | Some (RPart p) => snd (parts d p)
  end.

Definition startTransaction (label : string) (d : Diagram) : Diagram :=
  mkDiagram (selection d) (isReadOnly d) (parts d) (records d)
            (history d ++ [StartTransaction label]).

Definition commitTransaction (label : string) (d : Diagram) : Diagram :=
  mkDiagram (selection d) (isReadOnly d) (parts d) (records d)
            (history d ++ [CommitTransaction label]).

(** [model.setDataProperty(data, name, value)]: the property is set on
    the data object and the call is recorded (the methods of a GoJS model
    do not heed [isReadOnly]; checking it is left to the caller). *)
Definition setDataProperty (r : nat) (name : string) (v : jsval)
           (d : Diagram) : Diagram :=
  mkDiagram (selection d) (isReadOnly d) (parts d)
            (fun r' => if Nat.eqb r' r
                       then assoc_set name v (records d r)
                       else records d r')
            (history d ++ [SetDataProperty r name v]).

(** *** Property descriptors *)

(** A [show] or [readOnly] entry: absent (or neither a boolean nor a
    function), a boolean, or a predicate of the inspected object and the
    property name, which may read whatever the diagram holds. *)
Inductive toggle : Type :=
| Unset
| Flag (b : bool)
| Pred (p : Diagram -> objref -> string -> bool).

Record propertyDesc : Type := mkDesc {
  show : toggle;
  readOnly : toggle;
  type : option string;       (* [None] is [undefined] *)
  defaultValue : jsval        (* [VUndefined] when absent *)
}.

(** The static predicates offered for [show]; [go.Group] extends
    [go.Node]. *)
Definition showIfNode (d : Diagram) (o : objref) (_ : string) : bool :=
  match o with
  | RPart p => match fst (parts d p) with
               | Node | Group => true
               | _ => false
               end
  | RData _ => false
  end.

Definition showIfLink (d : Diagram) (o : objref) (_ : string) : bool :=
  match o with
  | RPart p => match fst (parts d p) with Link => true | _ => false end
  | RData _ => false
  end.

Definition showIfGroup (d : Diagram) (o : objref) (_ : string) : bool :=
  match o with
  | RPart p => match fst (parts d p) with Group => true | _ => false end
  | RData _ => false
  end.

(** *** The inspector *)

Record input : Type := mkInput {
  className : string;
  in_tabIndex : nat;
  value : string;
  in_type : string;
  disabled : bool;
  listeners : list string      (* events [setprops] is registered for *)
}.

Definition set_value (v : string) (i : input) : input :=
  mkInput (className i) (in_tabIndex i) v (in_type i) (disabled i)
          (listeners i).

Definition set_type (t : string) (i : input) : input :=
  mkInput (className i) (in_tabIndex i) (value i) t (disabled i)
          (listeners i).

Definition set_disabled (b : bool) (i : input) : input :=
  mkInput (className i) (in_tabIndex i) (value i) (in_type i) b
          (listeners i).

Definition addEventListener (ev : string) (i : input) : input :=
  mkInput (className i) (in_tabIndex i) (value i) (in_type i) (disabled i)
          (listeners i ++ [ev]).

(** [_div] lists the labels of the table rows the container shows (it is
    empty after [innerHTML = '']); the input of a row is the entry of
    that name in [_inspectedProperties]. [propertyModified] tells
    whether a callback was supplied. *)
Record Inspector : Type := mkInspector {
  _div : list string;
  _inspectedProperties : list (string * input);
  inspectedObject : option objref;
  includesOwnProperties : bool;
  declaredProperties : list (string * propertyDesc);
  inspectsSelection : bool;
  propertyModified : bool;
  tabIndex : nat
}.

(** The constructor's options; [None] is [undefined]. *)
Record Options : Type := mkOptions {
  opt_includesOwnProperties : option bool;
  opt_properties : option (list (string * propertyDesc));
  opt_inspectSelection : option bool;
  opt_propertyModified : bool
}.

Definition orDefault {A : Type} (o : option A) (d : A) : A :=
  match o with Some a => a | None => d end.

Definition newInspector (options : option Options) : Inspector :=
  match options with
  | None => mkInspector [] [] None true [] true false 0
  | Some o =>
      mkInspector [] [] None
                  (orDefault (opt_includesOwnProperties o) true)
                  (orDefault (opt_properties o) [])
                  (orDefault (opt_inspectSelection o) true)
                  (opt_propertyModified o)
                  0
  end.

(** The state the methods act on: the inspector, the diagram, and the
    calls made to the [propertyModified] callback, oldest first. *)
Record State : Type := mkState {
  insp : Inspector;
  dia : Diagram;
  modified : list (string * jsval)
}.

(** [Inspector.canShowProperty]. *)
Definition canShowProperty (d : Diagram) (propertyName : string)
           (propertyDesc : propertyDesc) (inspectedObject : objref)
  : bool :=
  match show propertyDesc with
  | Flag false => false
  | Pred p => p d inspectedObject propertyName
  | _ => true
  end.

(** [Inspector.canEditProperty]. Both callers have checked that the data
    object is there; without it reading [data[propertyName]] raises, and
    the model answers [false]. *)
Definition canEditProperty (d : Diagram) (propertyName : string)
           (propertyDesc : option propertyDesc) (inspectedObject : objref)
  : bool :=
  match dataOf d (Some inspectedObject) with
  | None => false
  | Some r =>
      match get (records d r) propertyName with
      | VFunction _ => false
      | _ =>
          match propertyDesc with
          | None => true
          | Some desc =>
              match readOnly desc with
              | Flag true => false
              | Pred p => negb (p d inspectedObject propertyName)
              | _ => true
              end
          end
      end
  end.

(** The declared types for which the input stays a text input. *)
Definition textTypes : list string :=
  ["string"; "number"; "boolean"; "arrayofnumber"; "point"; "size";
   "rect"; "spot"; "margin"].

Definition mem (s : string) (l : list string) : bool :=
  existsb (String.eqb s) l.

(** The [type] attribute written by [setAttribute('type', decProp.type)]. *)
Definition typeAttribute (t : option string) : string :=
  match t with Some s => s | None => "undefined" end.

Definition isColor (t : option string) : bool :=
  match t with Some s => String.eqb s "color" | None => false end.

(** The input element of [Inspector.buildPropertyRow]. An input starts
    out as a text input; when [setAttribute] changes its type the browser
    sanitises the value it holds for the new type. *)
Definition buildInput (d : Diagram) (i : Inspector)
           (propertyName : string) (propertyValue : jsval) : input :=
  let decProp := lookup propertyName (declaredProperties i) in
  let input0 :=
    mkInput "form-control" (tabIndex i)
            (assigned "text" (VStr (convertToString propertyValue)))
            "text"
            (match inspectedObject i with
             | Some o => negb (canEditProperty d propertyName decProp o)
             | None => true
             end)
            [] in
  let input1 :=
    match decProp with
    | None => input0
    | Some desc =>
        let t := type desc in
        let a :=
          if match t with Some s => mem s textTypes | None => false end
          then input0
          else
            let ty := inputType (typeAttribute t) in
            set_value (assigned ty (VStr (value input0)))
                      (set_type ty input0) in
        if isColor t && String.eqb (in_type a) "color"
        then set_value (assigned "color" (VStr (convertToColor propertyValue)))
               (addEventListener "change" (addEventListener "input" a))
        else a
    end in
  let input2 := if isReadOnly d then set_disabled true input1 else input1 in
  if negb (String.eqb (in_type input2) "color")
  then addEventListener "blur" input2
  else input2.

(** [Inspector.buildPropertyRow]: returns the label of the new row. *)
Definition buildPropertyRow (d : Diagram) (i : Inspector)
           (propertyName : string) (propertyValue : jsval)
  : Inspector * string :=
  let inp := buildInput d i propertyName propertyValue in
  (mkInspector (_div i)
               (assoc_set propertyName inp (_inspectedProperties i))
               (inspectedObject i) (includesOwnProperties i)
               (declaredProperties i) (inspectsSelection i)
               (propertyModified i) (S (tabIndex i)),
   propertyName).

Definition set_inspectedProperties (ps : list (string * input))
           (i : Inspector) : Inspector :=
  mkInspector (_div i) ps (inspectedObject i) (includesOwnProperties i)
              (declaredProperties i) (inspectsSelection i)
              (propertyModified i) (tabIndex i).

Definition set_inspectedObject (o : option objref) (i : Inspector)
  : Inspector :=
  mkInspector (_div i) (_inspectedProperties i) o
              (includesOwnProperties i) (declaredProperties i)
              (inspectsSelection i) (propertyModified i) (tabIndex i).

Definition set_div (rows : list string) (i : Inspector) : Inspector :=
  mkInspector rows (_inspectedProperties i) (inspectedObject i)
              (includesOwnProperties i) (declaredProperties i)
              (inspectsSelection i) (propertyModified i) (tabIndex i).

Definition set_tabIndex (n : nat) (i : Inspector) : Inspector :=
  mkInspector (_div i) (_inspectedProperties i) (inspectedObject i)
              (includesOwnProperties i) (declaredProperties i)
              (inspectsSelection i) (propertyModified i) n.

(** [Inspector.updateAllHTML]: the new value of one input. *)
Definition refreshed (data : option (list (string * jsval)))
           (name : string) (inp : input) : input :=
  let isColorInput := String.eqb (in_type inp) "color" in
  match data with
  | None =>
      if isColorInput
      then set_value (assigned (in_type inp) (VStr "#000000")) inp
      else set_value (assigned (in_type inp) (VStr EmptyString)) inp
  | Some fields =>
      let propertyValue := get fields name in
      if isColorInput
      then set_value
             (assigned (in_type inp) (VStr (convertToColor propertyValue)))
             inp
      else set_value
             (assigned (in_type inp) (VStr (convertToString propertyValue)))
             inp
  end.

Definition updateAllHTML (st : State) : State :=
  let i := insp st in
  let data :=
    match dataOf (dia st) (inspectedObject i) with
    | None => None
    | Some r => Some (records (dia st) r)
    end in
  mkState
    (set_inspectedProperties
       (map (fun entry => (fst entry, refreshed data (fst entry) (snd entry)))
            (_inspectedProperties i))
       i)
    (dia st) (modified st).

(** The body of the first loop of [inspectObject], over the declared
    properties; [tbody] collects the rows appended so far. *)
Definition showDeclared (d : Diagram) (o : objref)
           (data : list (string * jsval))
           (acc : Inspector * list string) (k : string)
  : Inspector * list string :=
  let (i, tbody) := acc in
  match lookup k (declaredProperties i) with
  | None => acc
  | Some val =>
      if negb (canShowProperty d k val o) then acc
      else
        let dflt0 := VStr EmptyString in
        let dflt1 :=
          if negb (is_undefined (defaultValue val))
          then defaultValue val else dflt0 in
        let dflt2 :=
          if negb (is_undefined (get data k)) then get data k else dflt1 in
        let (i', tr) :=
          buildPropertyRow d i k (if truthy dflt2 then dflt2 else VStr EmptyString) in
        (i', tbody ++ [tr])
  end.

(** The body of the second loop, over the keys of the data object. *)
Definition showOwn (d : Diagram) (o : objref)
           (data : list (string * jsval))
           (acc : Inspector * list string) (k : string)
  : Inspector * list string :=
  let (i, tbody) := acc in
  if String.eqb k "__gohashid" then acc
  else if hasKey k (_inspectedProperties i) then acc
  else
    let hidden :=
      match lookup k (declaredProperties i) with
      | Some desc => negb (canShowProperty d k desc o)
      | None => false
      end in
    if hidden then acc
    else
      let (i', tr) := buildPropertyRow d i k (get data k) in
      (i', tbody ++ [tr]).

(** The table built by [inspectObject] once the data object is known. *)
Definition buildTable (d : Diagram) (o : objref)
           (data : list (string * jsval)) (i : Inspector) : Inspector :=
  let i0 := set_tabIndex 0 (set_inspectedProperties [] i) in
  let built :=
    fold_left (showDeclared d o data) (keys (declaredProperties i0))
              (i0, []) in
  let built' :=
    if includesOwnProperties (fst built)
    then fold_left (showOwn d o data) (keys data) built
    else built in
  set_div (snd built') (fst built').

(** The optional argument of [inspectObject]. *)
Inductive argument : Type :=
| Omitted
| Null
| Obj (o : objref).

(** The object [inspectObject] settles on. *)
Definition resolve (object : argument) (st : State) : option objref :=
  match object with
  | Omitted =>
      if inspectsSelection (insp st) then selection_first (dia st)
      else inspectedObject (insp st)
  | Null => None
  | Obj o => Some o
  end.

Definition sameObject (a b : option objref) : bool :=
  match a, b with
  | None, None => true
  | Some x, Some y => objref_eqb x y
  | _, _ => false
  end.

(** [Inspector.inspectObject]. The test [this.inspectObject === null]
    that follows the assignment compares the method itself with [null] and
    never holds, so it has no branch here. When the container is cleared
    and the object has no data, [_inspectedProperties] keeps the inputs of
    the previous object. *)
Definition inspectObject (object : argument) (st : State) : State :=
  let i := insp st in
  let d := dia st in
  match resolve object st with
  | None =>
      updateAllHTML (mkState (set_inspectedObject None i) d (modified st))
  | Some o =>
      if sameObject (inspectedObject i) (Some o)
      then updateAllHTML
             (mkState (set_inspectedObject (Some o) i) d (modified st))
      else
        let i1 := set_div [] (set_inspectedObject (Some o) i) in
        match dataOf d (Some o) with
        | None => mkState i1 d (modified st)
        | Some r => mkState (buildTable d o (records d r) i1) d (modified st)
        end
  end.

(** The listeners installed by the constructor. *)
Definition onModelChanged (isTransactionFinished : bool) (st : State)
  : State :=
  if isTransactionFinished then inspectObject Omitted st else st.

Definition onChangedSelection (st : State) : State :=
  if inspectsSelection (insp st) then inspectObject Omitted st else st.

(** The declared type of a row, [''] when there is none. *)
Definition declaredType (decProp : option propertyDesc) : string :=
  match decProp with
  | Some desc => match type desc with Some t => t | None => EmptyString end
  | None => EmptyString
  end.

(** The type the commit uses: the declared one, or the one inferred from
    the stored value when none is declared. *)
Definition effectiveType (decProp : option propertyDesc) (oldval : jsval)
  : string :=
  let type := declaredType decProp in
  if String.eqb type EmptyString then inferType oldval else type.

(** The body of the loop of [updateAllProperties] for one row; [r] is the
    data object and [o] the inspected object. *)
Definition commitProperty (r : nat) (o : objref) (st : State)
           (name : string) : State :=
  match lookup name (_inspectedProperties (insp st)) with
  | None => st
  | Some inp =>
      let decProp := lookup name (declaredProperties (insp st)) in
      if negb (canEditProperty (dia st) name decProp o) then st
      else
        let type := effectiveType decProp (get (records (dia st) r) name) in
        let v := convertValue type (value inp) in
        mkState
          (set_inspectedProperties
             (assoc_set name (set_value (assigned (in_type inp) v) inp)
                        (_inspectedProperties (insp st)))
             (insp st))
          (setDataProperty r name v (dia st))
          (if propertyModified (insp st)
           then modified st ++ [(name, v)]
           else modified st)
  end.

Definition withDiagram (f : Diagram -> Diagram) (st : State) : State :=
  mkState (insp st) (f (dia st)) (modified st).

(** [Inspector.updateAllProperties]. *)
Definition updateAllProperties (st : State) : State :=
  match inspectedObject (insp st),
        dataOf (dia st) (inspectedObject (insp st)) with
  | Some o, Some r =>
      let st1 := withDiagram (startTransaction "set all properties") st in
      let st2 :=
        fold_left (commitProperty r o)
                  (keys (_inspectedProperties (insp st))) st1 in
      withDiagram (commitTransaction "set all properties") st2
  | _, _ => st
  end.

(** An event [ev] reaching the input of row [name]: [setprops] runs when
    it was registered for that event. *)
Definition dispatch (ev : string) (name : string) (st : State) : State :=
  match lookup name (_inspectedProperties (insp st)) with
  | Some inp =>
      if mem ev (listeners inp) then updateAllProperties st else st
  | None => st
  end.

(** The user typing [text] into the input of row [name]. *)
Definition typeInto (name : string) (text : string) (st : State) : State :=
  match lookup name (_inspectedProperties (insp st)) with
  | Some inp =>
      mkState
        (set_inspectedProperties
           (assoc_set name (set_value text inp)
                      (_inspectedProperties (insp st)))
           (insp st))
        (dia st) (modified st)
  | None => st
  end.

(** The states an inspector goes through: it is constructed on some
    diagram; [inspectObject] is called (by the listeners or by the
    application); events reach the inputs; the user types; the
    application changes the diagram. *)
Inductive reachable : State -> Prop :=
| reach_new options d :
    reachable (mkState (newInspector options) d [])
| reach_inspect object st :
    reachable st -> reachable (inspectObject object st)
| reach_dispatch ev name st :
    reachable st -> reachable (dispatch ev name st)
| reach_update st :
    reachable st -> reachable (updateAllProperties st)
| reach_type name text st :
    reachable st -> reachable (typeInto name text st)
| reach_diagram d st :
    reachable st -> reachable (mkState (insp st) d (modified st)).

(** The events [buildPropertyRow] registers [setprops] for, given the
    declared type of the row and the type the input ended up with. *)
Definition expectedListeners (decProp : option propertyDesc)
           (inputTy : string) : list string :=
  if String.eqb inputTy "color"
  then if String.eqb (declaredType decProp) "color"
       then ["input"; "change"] else []
  else ["blur"].

(** A declared property that passes the visibility check. *)
Definition shownDeclared (d : Diagram) (o : objref)
           (declared : list (string * propertyDesc)) (k : string) : bool :=
  match lookup k declared with
  | Some desc => canShowProperty d k desc o
  | None => false
  end.

(** A declared property that fails the visibility check. *)
Definition hiddenDeclared (d : Diagram) (o : objref)
           (declared : list (string * propertyDesc)) (k : string) : bool :=
  match lookup k declared with
  | Some desc => negb (canShowProperty d k desc o)
  | None => false
  end.

(** What the options fix for the lifetime of an inspector. *)
Definition sameOptions (i i' : Inspector) : Prop :=
  declaredProperties i' = declaredProperties i
  /\ includesOwnProperties i' = includesOwnProperties i
  /\ inspectsSelection i' = inspectsSelection i
  /\ propertyModified i' = propertyModified i.

(** Two states of an input that differ at most in the value held. *)
Definition sameButValue (a b : input) : Prop :=
  className b = className a
  /\ in_tabIndex b = in_tabIndex a
  /\ in_type b = in_type a
  /\ disabled b = disabled a
  /\ listeners b = listeners a.

(** The rows listen as [buildPropertyRow] set them up. *)
Definition listenersAsBuilt (i : Inspector) : Prop :=
  forall k inp,
    lookup k (_inspectedProperties i) = Some inp ->
    listeners inp
    = expectedListeners (lookup k (declaredProperties i)) (in_type inp).

(** The calls the model received, and the calls the callback received,
    between two states. *)
Definition newOps (before after : State) : list modelOp :=
  skipn (length (history (dia before))) (history (dia after)).

Definition newCalls (before after : State) : list (string * jsval) :=
  skipn (length (modified before)) (modified after).

(** The data object an inspected object stands for, as [updateAllHTML]
    reads it. *)
Definition fieldsOf (d : Diagram) (o : option objref)
  : option (list (string * jsval)) :=
  match dataOf d o with
  | Some r => Some (records d r)
  | None => None
  end.

(** The model call that writes a pair of a name and a value. *)
Definition opOf (r : nat) (w : string * jsval) : modelOp :=
  SetDataProperty r (fst w) (snd w).

Definition named (k : string) (w : string * jsval) : bool :=
  String.eqb (fst w) k.
End InspectorModel.

(** ** The catalogue client ([CswService]) *)

(** The double-quote character. *)
Definition dq : string := String (ascii_of_nat 34) EmptyString.

(** The template literal of [getExecutionResults] up to [${executionId}].
    The backslash the template has after [escapeChar=] escapes the double
    quote that follows it, so the attribute is empty. *)
Definition xml_head : string :=
  ("
      <csw:GetRecords xmlns:csw="
      ++ dq ++ "http://www.opengis.net/cat/csw/2.0.2"
      ++ dq ++ " xmlns:ogc="
      ++ dq ++ "http://www.opengis.net/ogc"
      ++ dq ++ " service="
      ++ dq ++ "CSW"
      ++ dq ++ " version="
      ++ dq ++ "2.0.2"
      ++ dq ++ " resultType="
      ++ dq ++ "results"
      ++ dq ++ " startPosition="
      ++ dq ++ "1"
      ++ dq ++ " maxRecords="
      ++ dq ++ "10"
      ++ dq ++ " outputFormat="
      ++ dq ++ "application/xml"
      ++ dq ++ " outputSchema="
      ++ dq ++ "http://www.opengis.net/cat/csw/2.0.2"
      ++ dq ++ " xmlns:xsi="
      ++ dq ++ "http://www.w3.org/2001/XMLSchema-instance"
      ++ dq ++ " xsi:schemaLocation="
      ++ dq ++ "http://www.opengis.net/cat/csw/2.0.2 http://schemas.opengis.net/csw/2.0.2/CSW-discovery.xsd"
      ++ dq ++ " xmlns:gmd="
      ++ dq ++ "http://www.isotc211.org/2005/gmd"
      ++ dq ++ " xmlns:apiso="
      ++ dq ++ "http://www.opengis.net/cat/csw/apiso/1.0"
      ++ dq ++ ">
        <csw:Query typeNames="
      ++ dq ++ "csw:Record"
      ++ dq ++ ">
          <csw:ElementSetName>full</csw:ElementSetName>
          <csw:Constraint version="
      ++ dq ++ "1.1.0"
      ++ dq ++ ">
            <ogc:Filter>
              <ogc:PropertyIsLike matchCase="
      ++ dq ++ "false"
      ++ dq ++ " wildCard="
      ++ dq ++ "%"
      ++ dq ++ " singleChar="
      ++ dq ++ "_"
      ++ dq ++ " escapeChar="
      ++ dq
      ++ dq ++ ">
                <ogc:PropertyName>dc:title</ogc:PropertyName>
                <ogc:Literal>%")%string.

(** The template literal after [${executionId}]. *)
Definition xml_tail : string :=
  ("%</ogc:Literal>
              </ogc:PropertyIsLike>
            </ogc:Filter>
          </csw:Constraint>
        </csw:Query>
      </csw:GetRecords>
    ")%string.

Section Csw.
(** [Settings.REPOSITORY_ENDPOINT], from the settings module. *)
Variable REPOSITORY_ENDPOINT : string.

(** The structure xml2js builds from a document. *)
Variable xmltree : Type.

(** What [xml2js.parseString(text, callback)] does with a text: it calls
    the callback with an error and a result (either may be absent), or it
    throws. *)
Inductive parsing : Type :=
| CallsBack (err : option string) (result : option xmltree)
| Throws (e : string).

Variable parseString : string -> parsing.

Definition uri : string := (REPOSITORY_ENDPOINT ++ "csw")%string.

(** The request body: the template with the identifier spliced in. *)
Definition xml (executionId : string) : string :=
  (xml_head ++ executionId ++ xml_tail)%string.

Record Request : Type := mkRequest {
  req_url : string;
  req_body : string;
  req_headers : list (string * string)
}.

(** What a function call ends in. *)
Inductive outcome (A : Type) : Type :=
| Returned (a : A)
| Raised (e : string).
Arguments Returned {A} a.
Arguments Raised {A} e.

(** The function given to [map]: the callback stores [result] in [res]
    and never reads [err]; [res] starts out [undefined] ([None]). *)
Definition mapResponse (text : string) : outcome (option xmltree) :=
  match parseString text with
  | CallsBack err result => Returned result
  | Throws e => Raised e
  end.

(** [CswService.getExecutionResults]: the POST request sent and the
    function applied to the text of the response. *)
Definition getExecutionResults (executionId : string)
  : Request * (string -> outcome (option xmltree)) :=
  (mkRequest uri (xml executionId) [("Content-Type", "text/xml")],
   mapResponse).
End Csw.

Arguments CallsBack {xmltree} err result.
Arguments Throws {xmltree} e.
Arguments Returned {A} a.
Arguments Raised {A} e.

(** ** A small platform and browser for closed examples

    Numbers are the integers and [NaN] ([None]), printed in decimal; a
    geometry object is the tuple of its numbers, printed with one space
    between them. The browser knows the colours [red] and [#ff0000] and
    the input type [color]. *)

Module Small.
Definition num : Type := option Z.

Definition num_toString (n : num) : string :=
  match n with
  | Some z => NilEmpty.string_of_int (Z.to_int z)
  | None => "NaN"
  end.

Definition parseFloat (s : string) : num :=
  match s with
  | EmptyString => None
  | String _ _ => option_map Z.of_int (NilEmpty.int_of_string s)
  end.

Definition num_falsy (n : num) : bool :=
  match n with
  | Some z => Z.eqb z 0
  | None => true
  end.

Definition numbers (s : string) : list num :=
  map parseFloat
      (filter (fun str => negb (String.eqb str EmptyString))
              (split space s)).

Definition stringify (l : list num) : string :=
  String.concat " " (map num_toString l).

Definition zero : num := Some 0%Z.

Definition pair_stringify (p : num * num) : string :=
  stringify [fst p; snd p].

Definition pair_parse (s : string) : num * num :=
  let l := numbers s in (nth 0 l zero, nth 1 l zero).

Definition quad_stringify (q : (num * num) * (num * num)) : string :=
  stringify [fst (fst q); snd (fst q); fst (snd q); snd (snd q)].

Definition quad_parse (s : string) : (num * num) * (num * num) :=
  let l := numbers s in
  ((nth 0 l zero, nth 1 l zero), (nth 2 l zero, nth 3 l zero)).
End Small.

#[export] Instance smallPlatform : Platform := {|
  num := Small.num;
  num_toString := Small.num_toString;
  parseFloat := Small.parseFloat;
  num_falsy := Small.num_falsy;
  Point := Small.num * Small.num;
  Point_stringify := Small.pair_stringify;
  Point_parse := Small.pair_parse;
  Size := Small.num * Small.num;
  Size_stringify := Small.pair_stringify;
  Size_parse := Small.pair_parse;
  Rect := (Small.num * Small.num) * (Small.num * Small.num);
  Rect_stringify := Small.quad_stringify;
  Rect_parse := Small.quad_parse;
  Spot := (Small.num * Small.num) * (Small.num * Small.num);
  Spot_stringify := Small.quad_stringify;
  Spot_parse := Small.quad_parse;
  Margin := (Small.num * Small.num) * (Small.num * Small.num);
  Margin_stringify := Small.quad_stringify;
  Margin_parse := Small.quad_parse
|}.

Definition smallFillStyle (v : jsval) : string :=
  match v with
  | VStr s =>
      if String.eqb s "red" || String.eqb s "#ff0000" then "#ff0000"
      else "#000000"
  | _ => "#000000"
  end.

#[export] Instance smallBrowser : Browser := {|
  fillStyle := smallFillStyle;
  inputType := fun a => if String.eqb a "color" then "color" else "text";
  assigned := fun _ v => convertToString v
|}.

(** ** Notions used in the statements *)

Fixpoint contains (c : ascii) (s : string) : bool :=
  match s with
  | EmptyString => false
  | String c' rest => Ascii.eqb c' c || contains c rest
  end.

(** A piece of text that [split(' ')] keeps whole and the array parser
    does not skip. *)
Definition token (s : string) : Prop :=
  s <> EmptyString /\ contains space s = false.

(** What the code relies on from the libraries when a value is printed
    and read back: a number prints as one token other than [null] from
    which [parseFloat] recovers it (the two zeros print alike and count as
    one number), [parse] undoes [stringify] in each geometry class, and the
    canvas leaves a colour it has normalised as it is. *)
Record RoundTripLaws {P : Platform} {B : Browser} : Prop := {
  parseFloat_toString : forall n, parseFloat (num_toString n) = n;
  toString_token : forall n, token (num_toString n);
  toString_not_null : forall n, num_toString n <> "null";
  Point_parse_stringify : forall p, Point_parse (Point_stringify p) = p;
  Size_parse_stringify : forall s, Size_parse (Size_stringify s) = s;
  Rect_parse_stringify : forall r, Rect_parse (Rect_stringify r) = r;
  Spot_parse_stringify : forall s, Spot_parse (Spot_stringify s) = s;
  Margin_parse_stringify : forall m, Margin_parse (Margin_stringify m) = m;
  fillStyle_normal : forall v, fillStyle (VStr (fillStyle v)) = fillStyle v
}.
Arguments RoundTripLaws P B : clear implicits.

Section Typing.
Context {P : Platform} {B : Browser}.

(** The values of each supported type tag. An [arrayofnumber] is an
    array of numbers or [null]; a colour is a string. *)
Inductive hasType : string -> jsval -> Prop :=
| T_number n : hasType "number" (VNum n)
| T_boolean b : hasType "boolean" (VBool b)
| T_array ns : hasType "arrayofnumber" (VArray (map VNum ns))
| T_array_null : hasType "arrayofnumber" VNull
| T_point p : hasType "point" (VPoint p)
| T_size s : hasType "size" (VSize s)
| T_rect r : hasType "rect" (VRect r)
| T_spot s : hasType "spot" (VSpot s)
| T_margin m : hasType "margin" (VMargin m)
| T_color s : hasType "color" (VStr s).

(** The text an input shows for a value: [convertToColor] for a colour,
    [convertToString] otherwise. *)
Definition textOf (tag : string) (v : jsval) : string :=
  if String.eqb tag "color" then convertToColor v else convertToString v.

(** Two colours are equivalent when the canvas normalises them alike;
    other values when they are equal. *)
Definition equivalent (tag : string) (a b : jsval) : Prop :=
  if String.eqb tag "color" then convertToColor a = convertToColor b
  else a = b.
End Typing.

(** ** Notions used in the proofs *)

Section ProofNotions.
Context {P : Platform} {B : Browser}.

(** The pairs written by the loop over the rows [l] from state [s], in
    order. *)
Fixpoint writesOf (r : nat) (o : objref) (l : list string) (s : State) : list (string * jsval) :=
  match l with
  | [] => []
  | name :: rest =>
      match lookup name (_inspectedProperties (insp s)) with
      | Some inp =>
          if canEditProperty (dia s) name
               (lookup name (declaredProperties (insp s))) o
          then [(name,
                 convertValue
                   (effectiveType
                      (lookup name (declaredProperties (insp s)))
                      (get (records (dia s) r) name))
                   (value inp))]
          else []
      | None => []
      end ++ writesOf r o rest (commitProperty r o s name)
  end.


(** A row appended for [k] showing [v]. *)
Definition appended (d : Diagram) (acc : Inspector * list string) (k : string)
           (v : jsval) : Inspector * list string :=
  (fst (buildPropertyRow d (fst acc) k v), snd acc ++ [k]).


(** What every step of the two loops maintains. *)
Definition tableInv (i0 : Inspector) (Q : string -> input -> Prop)
           (acc : Inspector * list string) : Prop :=
  sameOptions i0 (fst acc)
  /\ inspectedObject (fst acc) = inspectedObject i0
  /\ _div (fst acc) = _div i0
  /\ (forall k, In k (snd acc)
                <-> In k (keys (_inspectedProperties (fst acc))))
  /\ NoDup (keys (_inspectedProperties (fst acc)))
  /\ (forall k inp,
         lookup k (_inspectedProperties (fst acc)) = Some inp -> Q k inp).

End ProofNotions.

(** ** The catalogue request: the title filter *)

(** The opening of the title filter in the template, up to the literal. *)
Definition likeOpen : string :=
  ("<ogc:PropertyIsLike matchCase="
   ++ dq
   ++ "false"
   ++ dq
   ++ " wildCard="
   ++ dq
   ++ "%"
   ++ dq
   ++ " singleChar="
   ++ dq
   ++ "_"
   ++ dq
   ++ " escapeChar="
   ++ dq
   ++ dq
   ++ ">
                <ogc:PropertyName>dc:title</ogc:PropertyName>
                <ogc:Literal>")%string.

(** The closing of the literal and of the filter. *)
Definition likeClose : string :=
  ("</ogc:Literal>
              </ogc:PropertyIsLike>")%string.

(** ** Two statements as the specification words them *)

(** The rows are the visible declared properties together with every own
    key of the data record but __gohashid. *)
Definition rowsAsClaimed {P : Platform} {B : Browser} (object : argument)
           (st : State) (o : objref) (r : nat) : Prop :=
  forall k,
    In k (_div (insp (inspectObject object st)))
    <-> shownDeclared (dia st) o (declaredProperties (insp st)) k = true
        \/ (includesOwnProperties (insp st) = true
            /\ In k (keys (records (dia st) r))
            /\ k <> "__gohashid").

(** A commit on a read-only model writes no property. *)
Definition readOnlyModelSkips {P : Platform} {B : Browser} (st : State)
           (r : nat) (k : string) : Prop :=
  isReadOnly (dia st) = true ->
  forall v, ~ In (SetDataProperty r k v) (newOps st (updateAllProperties st)).

(** A text the parser fails on, whichever way it tells. *)
Definition parseFails {T : Type} (parse : string -> parsing T)
           (text : string) : Prop :=
  (exists e result, parse text = CallsBack (Some e) result)
  \/ (exists e, parse text = Throws e).

(** Every parse failure reaches the caller as an error. *)
Definition failuresPropagate {T : Type} (endpoint : string)
           (parse : string -> parsing T) : Prop :=
  forall executionId text,
    parseFails parse text ->
    exists e,
      snd (getExecutionResults endpoint T parse executionId) text = Raised e.

(** ** Example scenarios on the small platform *)

Module Example.
(** One node (part 1) bound to the data record 0, and selected. *)
Definition nodeData : list (string * jsval) :=
  [("key", VNum (Some 1%Z)); ("name", VStr "a"); ("done", VBool false);
   ("fill", VStr "red"); ("__gohashid", VNum (Some 42%Z))].

Definition diagram : Diagram :=
  mkDiagram [1] false
            (fun p => if Nat.eqb p 1 then (Node, Some 0) else (Link, None))
            (fun _ => nodeData)
            [].

Definition always : Diagram -> objref -> string -> bool :=
  fun _ _ _ => true.

Definition keyDesc : propertyDesc := mkDesc Unset (Flag true) None VUndefined.
Definition lockedDesc : propertyDesc :=
  mkDesc (Pred showIfNode) (Pred always) None (VStr "yes").
Definition fillDesc : propertyDesc :=
  mkDesc Unset Unset (Some "color") VUndefined.
Definition secretDesc : propertyDesc :=
  mkDesc (Flag false) Unset None VUndefined.

Definition options : Options :=
  mkOptions None
            (Some [("key", keyDesc); ("locked", lockedDesc);
                   ("fill", fillDesc); ("secret", secretDesc)])
            None true.

(** The inspector as constructed, and after the selection was inspected. *)
Definition fresh : State := mkState (newInspector (Some options)) diagram [].
Definition shown : State := inspectObject Omitted fresh.

(** A data object with a hidden declared property, inspected directly. *)
Definition plainDiagram : Diagram :=
  mkDiagram [] false (fun _ => (Node, None))
            (fun _ => [("a", VStr "x"); ("b", VStr "y")]) [].

Definition plainFresh : State :=
  mkState
    (newInspector
       (Some (mkOptions None (Some [("a", secretDesc)]) (Some false) false)))
    plainDiagram [].

(** A data object inspected while the model is writable; the user types
    into its one row; the application then makes the model read-only. *)
Definition nameDiagram (readOnlyModel : bool) : Diagram :=
  mkDiagram [] readOnlyModel (fun _ => (Node, None))
            (fun _ => [("name", VStr "a")]) [].

Definition edited : State :=
  typeInto "name" "b"
    (inspectObject (Obj (RData 0))
       (mkState (newInspector (Some (mkOptions None None (Some false) false)))
                (nameDiagram false) [])).

Definition frozen : State :=
  mkState (insp edited) (nameDiagram true) (modified edited).

(** A parser that, like the callback form of xml2js, hands the error of a
    text that does not start with a tag to the callback. *)
Definition callbackParser (text : string) : parsing string :=
  match text with
  | String "<" _ => CallsBack None (Some text)
  | _ => CallsBack (Some "Non-whitespace before first tag.") None
  end.
End Example.

(** ** Notions used in the further properties *)

(** A text of [n] spaces. *)
Fixpoint spaces (n : nat) : string :=
  match n with
  | 0 => EmptyString
  | S m => String space (spaces m)
  end.

Section TableNotions.
Context {P : Platform} {B : Browser}.

(** The value [inspectObject] hands to [buildPropertyRow] for the row of
    [k]: for a declared property the stored value, else the declared
    default, else the empty text, and the empty text again when that is
    falsy; for any other key the stored value. *)
Definition rowValue (declared : list (string * propertyDesc))
           (data : list (string * jsval)) (k : string) : jsval :=
  match lookup k declared with
  | Some val =>
      let dflt1 :=
        if negb (is_undefined (defaultValue val))
        then defaultValue val else VStr EmptyString in
      let dflt2 :=
        if negb (is_undefined (get data k)) then get data k else dflt1 in
      if truthy dflt2 then dflt2 else VStr EmptyString
  | None => get data k
  end.

(** The names of the rows of a rebuilt table, in order: the declared
    properties that pass the visibility check, then, when own properties
    are included, the keys of the data object that are neither
    __gohashid nor declared. *)
Definition rowNames (d : Diagram) (o : objref)
           (declared : list (string * propertyDesc)) (includesOwn : bool)
           (data : list (string * jsval)) : list string :=
  filter (shownDeclared d o declared) (keys declared)
  ++ (if includesOwn
      then filter (fun k => negb (String.eqb k "__gohashid")
                            && negb (hasKey k declared))
                  (keys data)
      else []).

(** The inputs of the rows [names], the first with tab index [n]. *)
Fixpoint inputsFrom (d : Diagram) (i : Inspector)
         (data : list (string * jsval)) (n : nat) (names : list string)
  : list (string * input) :=
  match names with
  | [] => []
  | k :: rest =>
      (k, buildInput d (set_tabIndex n i) k
            (rowValue (declaredProperties i) data k))
      :: inputsFrom d i data (S n) rest
  end.
(** The inspector while the table is being built, once the rows [names]
    have been appended to an inspector that started as [i]. *)
Definition tableAt (d : Diagram) (data : list (string * jsval))
           (i : Inspector) (names : list string)
  : Inspector * list string :=
  (mkInspector (_div i) (inputsFrom d i data 0 names) (inspectedObject i)
               (includesOwnProperties i) (declaredProperties i)
               (inspectsSelection i) (propertyModified i) (length names),
   names).

End TableNotions.

(** ** A second example scenario on the small platform *)

Module Sample.
(** A data object inspected directly, with two declared properties: a note
    with a default that the object does not hold, and a boolean that is
    stored as false. *)
Definition data : list (string * jsval) :=
  [("name", VStr "a"); ("done", VBool false);
   ("tags", VArray [VStr "x"; VStr "y"])].

Definition diagram : Diagram :=
  mkDiagram [] false (fun _ => (Node, None)) (fun _ => data) [].

Definition noteDesc : propertyDesc :=
  mkDesc Unset Unset (Some "string") (VStr "n/a").
Definition doneDesc : propertyDesc :=
  mkDesc Unset Unset (Some "boolean") VUndefined.

Definition fresh : State :=
  mkState
    (newInspector
       (Some (mkOptions None (Some [("note", noteDesc); ("done", doneDesc)])
                        (Some false) true)))
    diagram [].

Definition shown : State := inspectObject (Obj (RData 0)) fresh.

(** The first example after its selection was emptied. *)
Definition deselected : State :=
  mkState (insp Example.shown)
          (mkDiagram [] false (parts Example.diagram)
                     (records Example.diagram) [])
          (modified Example.shown).
End Sample.

(** * Properties *)

(** ** Objects *)

Section ObjectFacts.
Context {A : Type}.
Implicit Types (o : list (string * A)) (k : string).

Lemma lookup_assoc_set_same k (v : A) o :
  lookup k (assoc_set k v o) = Some v.
Proof.
  induction o as [|[k' v'] rest IH]; simpl.
  - now rewrite String.eqb_refl.
  - destruct (String.eqb k k') eqn:E; simpl; rewrite E; auto.
Qed.

Lemma lookup_assoc_set_other k k' (v : A) o :
  k <> k' -> lookup k (assoc_set k' v o) = lookup k o.
Proof.
  intros Hne. induction o as [|[k0 v0] rest IH]; simpl.
  - destruct (String.eqb_spec k k'); congruence.
  - destruct (String.eqb_spec k' k0) as [->|Hk]; simpl.
    + destruct (String.eqb_spec k k0); congruence.
    + destruct (String.eqb_spec k k0); auto.
Qed.

Lemma lookup_Some_In k o (v : A) : lookup k o = Some v -> In k (keys o).
Proof.
  induction o as [|[k' v'] rest IH]; simpl; [discriminate|].
  destruct (String.eqb_spec k k'); auto.
Qed.

Lemma In_keys_lookup k o : In k (keys o) -> exists v, lookup k o = Some v.
Proof.
  induction o as [|[k' v'] rest IH]; simpl; [tauto|].
  intros [<-|H].
  - rewrite String.eqb_refl. eauto.
  - destruct (String.eqb k k'); eauto.
Qed.

Lemma hasKey_In k o : hasKey k o = true <-> In k (keys o).
Proof.
  unfold hasKey. split.
  - destruct (lookup k o) eqn:E; [intros _|discriminate].
    eapply lookup_Some_In; eauto.
  - intros H. apply In_keys_lookup in H as [v ->]. reflexivity.
Qed.

Lemma keys_assoc_set_present k (v : A) o :
  In k (keys o) -> keys (assoc_set k v o) = keys o.
Proof.
  induction o as [|[k' v'] rest IH]; simpl; [tauto|].
  intros H. destruct (String.eqb_spec k k') as [->|Hne]; simpl; auto.
  f_equal. apply IH. destruct H; congruence.
Qed.

Lemma keys_assoc_set_fresh k (v : A) o :
  ~ In k (keys o) -> keys (assoc_set k v o) = keys o ++ [k].
Proof.
  induction o as [|[k' v'] rest IH]; simpl; auto.
  intros H. destruct (String.eqb_spec k k') as [->|Hne]; simpl.
  - tauto.
  - f_equal. apply IH. tauto.
Qed.

Lemma In_keys_assoc_set k k' (v : A) o :
  In k (keys (assoc_set k' v o)) <-> k = k' \/ In k (keys o).
Proof.
  destruct (in_dec string_dec k' (keys o)) as [Hin|Hout].
  - rewrite keys_assoc_set_present by assumption.
    split; [auto|]. intros [->|]; auto.
  - rewrite keys_assoc_set_fresh by assumption.
    rewrite in_app_iff; simpl. intuition congruence.
Qed.

Lemma NoDup_keys_assoc_set k (v : A) o :
  NoDup (keys o) -> NoDup (keys (assoc_set k v o)).
Proof.
  intros H. destruct (in_dec string_dec k (keys o)) as [Hin|Hout].
  - now rewrite keys_assoc_set_present.
  - rewrite keys_assoc_set_fresh by assumption.
    apply NoDup_app; [assumption|repeat constructor; simpl; tauto|].
    intros x Hx [<-|[]]. contradiction.
Qed.
End ObjectFacts.

(** ** Splitting and joining *)

Lemma split_no_sep (sep : ascii) (s : string) :
  contains sep s = false -> split sep s = [s].
Proof.
  induction s as [|c rest IH]; simpl; [reflexivity|].
  intros H. apply orb_false_iff in H as [Hc Hrest].
  rewrite Hc, (IH Hrest). reflexivity.
Qed.

Lemma split_app_sep (sep : ascii) (s rest : string) :
  contains sep s = false ->
  split sep (s ++ String sep rest) = s :: split sep rest.
Proof.
  induction s as [|c s' IH]; simpl.
  - intros _. now rewrite Ascii.eqb_refl.
  - intros H. apply orb_false_iff in H as [Hc Hs'].
    rewrite Hc, (IH Hs'). reflexivity.
Qed.

Lemma contains_app_sep (c : ascii) (s t : string) :
  contains c (s ++ String c t) = true.
Proof.
  induction s as [|c' s IH]; simpl.
  - now rewrite Ascii.eqb_refl.
  - rewrite IH. apply orb_true_r.
Qed.

Lemma split_concat (l : list string) :
  Forall token l -> l <> [] -> split space (String.concat " " l) = l.
Proof.
  induction l as [|s rest IH]; [congruence|].
  intros Hall _. inversion Hall as [|? ? [_ Hs] Hrest]; subst.
  destruct rest as [|s' rest'].
  - simpl. now apply split_no_sep.
  - change (String.concat " " (s :: s' :: rest'))
      with (s ++ String space (String.concat " " (s' :: rest')))%string.
    rewrite split_app_sep by assumption.
    f_equal. apply IH; [assumption|discriminate].
Qed.

Lemma filter_tokens (l : list string) :
  Forall token l ->
  filter (fun str => negb (String.eqb str EmptyString)) l = l.
Proof.
  induction 1 as [|s rest [Hne _] _ IH]; simpl; [reflexivity|].
  destruct (String.eqb_spec s EmptyString); [contradiction|].
  simpl. now rewrite IH.
Qed.

Lemma pieces_concat (l : list string) :
  Forall token l ->
  filter (fun str => negb (String.eqb str EmptyString))
         (split space (String.concat " " l)) = l.
Proof.
  intros Hall. destruct l as [|s rest]; [reflexivity|].
  rewrite split_concat by (assumption || discriminate).
  now apply filter_tokens.
Qed.

Lemma concat_tokens_not_null (l : list string) :
  Forall token l -> (forall s, In s l -> s <> "null") ->
  String.concat " " l <> "null".
Proof.
  intros Hall Hnull. destruct l as [|s [|s' rest]].
  - discriminate.
  - simpl. apply Hnull. now left.
  - change (String.concat " " (s :: s' :: rest))
      with (s ++ String space (String.concat " " (s' :: rest)))%string.
    intros E.
    assert (Hc : contains space
                   (s ++ String space (String.concat " " (s' :: rest)))
                 = true).
    { apply contains_app_sep. }
    rewrite E in Hc. discriminate.
Qed.

(** ** Conversions (C4, C5) *)

Section Conversions.
Context {P : Platform} {B : Browser}.

Lemma parseBoolean_false (v : jsval) :
  parseBoolean v = false <->
  v = VBool false \/ v = VStr "false" \/ v = VStr "0".
Proof.
  unfold parseBoolean. rewrite negb_false_iff, !orb_true_iff.
  split.
  - intros [[H|H]|H].
    + destruct v; try discriminate.
      match goal with b : bool |- _ => destruct b end;
        [discriminate|auto].
    + destruct v; try discriminate. simpl in H.
      apply String.eqb_eq in H. subst. auto.
    + destruct v; try discriminate. simpl in H.
      apply String.eqb_eq in H. subst. auto.
  - intros [ -> | [ -> | -> ] ]; simpl; auto.
Qed.

Lemma convertToString_numbers (ns : list num) :
  convertToString (VArray (map VNum ns))
  = String.concat " " (map num_toString ns).
Proof.
  simpl. rewrite map_map. reflexivity.
Qed.

Lemma array_round_trip (ns : list num) :
  RoundTripLaws P B ->
  convertToArrayOfNumber (convertToString (VArray (map VNum ns)))
  = VArray (map VNum ns).
Proof.
  intros L. rewrite convertToString_numbers.
  assert (Htok : Forall token (map num_toString ns)).
  { apply Forall_forall. intros s Hs. apply in_map_iff in Hs as [n [<- _]].
    apply (toString_token L). }
  unfold convertToArrayOfNumber.
  destruct (String.eqb_spec (String.concat " " (map num_toString ns)) "null")
    as [E|_].
  - exfalso. revert E. apply concat_tokens_not_null; [assumption|].
    intros s Hs. apply in_map_iff in Hs as [n [<- _]].
    apply (toString_not_null L).
  - rewrite pieces_concat by assumption.
    rewrite map_map. f_equal.
    rewrite <- (map_id ns) at 2. rewrite map_map.
    apply map_ext. intros n. now rewrite (parseFloat_toString L).
Qed.

End Conversions.

(** ** The small platform satisfies the round-trip laws *)

Module SmallFacts.
Import Small.

Lemma uint_no_space (d : Decimal.uint) :
  contains space (NilEmpty.string_of_uint d) = false.
Proof.
  induction d; simpl; auto.
Qed.

Lemma to_int_nonempty (z : Z) :
  NilEmpty.string_of_int (Z.to_int z) <> EmptyString.
Proof.
  destruct z as [|p|p]; simpl; try discriminate.
  pose proof (DecimalPos.Unsigned.to_uint_nonnil p) as Hp.
  destruct (Pos.to_uint p); simpl; congruence.
Qed.

Lemma small_parseFloat_toString (n : num) : parseFloat (num_toString n) = n.
Proof.
  destruct n as [z|]; [|reflexivity].
  unfold num_toString, parseFloat.
  pose proof (to_int_nonempty z) as Hne.
  destruct (NilEmpty.string_of_int (Z.to_int z)) eqn:E; [congruence|].
  rewrite <- E, NilEmpty.isi. simpl. now rewrite DecimalZ.of_to.
Qed.

Lemma small_toString_token (n : num) : token (num_toString n).
Proof.
  destruct n as [z|]; [|split; [discriminate|reflexivity]].
  split; [apply to_int_nonempty|].
  unfold num_toString. destruct (Z.to_int z); simpl; apply uint_no_space.
Qed.

Lemma small_toString_not_null (n : num) : num_toString n <> "null".
Proof.
  destruct n as [z|]; [|discriminate].
  unfold num_toString.
  destruct (Z.to_int z) as [d|d]; [destruct d|]; simpl; discriminate.
Qed.

Lemma numbers_stringify (l : list num) : numbers (stringify l) = l.
Proof.
  unfold numbers, stringify.
  rewrite pieces_concat.
  - rewrite map_map. rewrite <- (map_id l) at 2.
    apply map_ext. apply small_parseFloat_toString.
  - apply Forall_forall. intros s Hs.
    apply in_map_iff in Hs as [n [<- _]]. apply small_toString_token.
Qed.

Lemma pair_round_trip (p : num * num) : pair_parse (pair_stringify p) = p.
Proof.
  unfold pair_parse, pair_stringify. rewrite numbers_stringify.
  now destruct p.
Qed.

Lemma quad_round_trip (q : (num * num) * (num * num)) :
  quad_parse (quad_stringify q) = q.
Proof.
  unfold quad_parse, quad_stringify. rewrite numbers_stringify.
  now destruct q as [[a b] [c d]].
Qed.

Lemma small_fillStyle_normal (v : jsval) :
  smallFillStyle (VStr (smallFillStyle v)) = smallFillStyle v.
Proof.
  destruct v; try reflexivity.
  simpl. destruct (String.eqb s "red" || String.eqb s "#ff0000");
    reflexivity.
Qed.

Lemma laws : RoundTripLaws smallPlatform smallBrowser.
Proof.
  constructor.
  - exact small_parseFloat_toString.
  - exact small_toString_token.
  - exact small_toString_not_null.
  - exact pair_round_trip.
  - exact pair_round_trip.
  - exact quad_round_trip.
  - exact quad_round_trip.
  - exact quad_round_trip.
  - exact small_fillStyle_normal.
Qed.
End SmallFacts.

Section RoundTrip.
Context {P : Platform} {B : Browser}.

End RoundTrip.

(** ** The commit loop *)

Section CommitFacts.
Context {P : Platform} {B : Browser}.
Variables (r : nat) (o : objref).

Ltac step_commit s name :=
  unfold commitProperty;
  destruct (lookup name (_inspectedProperties (insp s))) as [inp|] eqn:Hinp;
  [destruct (canEditProperty (dia s) name
               (lookup name (declaredProperties (insp s))) o) eqn:Hedit
  |]; simpl.

Lemma commitProperty_config (s : State) (name : string) :
  let s' := commitProperty r o s name in
  declaredProperties (insp s') = declaredProperties (insp s)
  /\ inspectedObject (insp s') = inspectedObject (insp s)
  /\ propertyModified (insp s') = propertyModified (insp s)
  /\ _div (insp s') = _div (insp s)
  /\ keys (_inspectedProperties (insp s'))
     = keys (_inspectedProperties (insp s)).
Proof.
  step_commit s name; repeat split; auto.
  apply keys_assoc_set_present. eapply lookup_Some_In; eauto.
Qed.

Lemma commitProperty_history (s : State) (name : string) :
  history (dia (commitProperty r o s name))
  = history (dia s) ++ map (opOf r) (writesOf r o [name] s).
Proof.
  simpl. step_commit s name; now rewrite ?app_nil_r.
Qed.

Lemma commitProperty_modified (s : State) (name : string) :
  modified (commitProperty r o s name)
  = modified s
    ++ (if propertyModified (insp s) then writesOf r o [name] s else []).
Proof.
  simpl. step_commit s name;
    destruct (propertyModified (insp s)); now rewrite ?app_nil_r.
Qed.

Lemma commitProperty_other_input (s : State) (name k : string) :
  k <> name ->
  lookup k (_inspectedProperties (insp (commitProperty r o s name)))
  = lookup k (_inspectedProperties (insp s)).
Proof.
  intros Hne. step_commit s name; auto.
  now apply lookup_assoc_set_other.
Qed.

Lemma commitProperty_other_field (s : State) (name k : string) :
  k <> name ->
  get (records (dia (commitProperty r o s name)) r) k
  = get (records (dia s) r) k.
Proof.
  intros Hne. step_commit s name; auto.
  rewrite Nat.eqb_refl. unfold get.
  now rewrite lookup_assoc_set_other.
Qed.

Lemma commitProperty_other_record (s : State) (name : string) (r' : nat) :
  r' <> r ->
  records (dia (commitProperty r o s name)) r' = records (dia s) r'.
Proof.
  intros Hne. step_commit s name; auto.
  destruct (Nat.eqb_spec r' r); congruence.
Qed.

Lemma commitProperty_diagram (s : State) (name : string) :
  let s' := commitProperty r o s name in
  selection (dia s') = selection (dia s)
  /\ isReadOnly (dia s') = isReadOnly (dia s)
  /\ parts (dia s') = parts (dia s).
Proof.
  step_commit s name; auto.
Qed.

Lemma writesOf_app (l1 l2 : list string) (s : State) :
  writesOf r o (l1 ++ l2) s
  = writesOf r o l1 s ++ writesOf r o l2 (fold_left (commitProperty r o) l1 s).
Proof.
  revert s. induction l1 as [|name rest IH]; intros s; simpl.
  - reflexivity.
  - rewrite IH. now rewrite app_assoc.
Qed.

Lemma writesOf_names (l : list string) (s : State) (w : string * jsval) :
  In w (writesOf r o l s) -> In (fst w) l.
Proof.
  revert s. induction l as [|name rest IH]; intros s; simpl; [tauto|].
  rewrite in_app_iff. intros [H|H].
  - left.
    destruct (lookup name (_inspectedProperties (insp s))); [|destruct H].
    destruct (canEditProperty _ _ _ _); [|destruct H].
    destruct H as [<-|[]]. reflexivity.
  - right. eapply IH; eauto.
Qed.

Lemma loop_config (l : list string) (s : State) :
  let s' := fold_left (commitProperty r o) l s in
  declaredProperties (insp s') = declaredProperties (insp s)
  /\ inspectedObject (insp s') = inspectedObject (insp s)
  /\ propertyModified (insp s') = propertyModified (insp s)
  /\ _div (insp s') = _div (insp s)
  /\ keys (_inspectedProperties (insp s'))
     = keys (_inspectedProperties (insp s)).
Proof.
  revert s. induction l as [|name rest IH]; intros s; simpl.
  - repeat split.
  - destruct (IH (commitProperty r o s name)) as (A & B' & C & D & E).
    destruct (commitProperty_config s name) as (A' & B'' & C' & D' & E').
    repeat split; congruence.
Qed.

Lemma loop_diagram (l : list string) (s : State) :
  let s' := fold_left (commitProperty r o) l s in
  selection (dia s') = selection (dia s)
  /\ isReadOnly (dia s') = isReadOnly (dia s)
  /\ parts (dia s') = parts (dia s).
Proof.
  revert s. induction l as [|name rest IH]; intros s; simpl.
  - repeat split.
  - destruct (IH (commitProperty r o s name)) as (A & B' & C).
    destruct (commitProperty_diagram s name) as (A' & B'' & C').
    repeat split; congruence.
Qed.

Lemma loop_history (l : list string) (s : State) :
  history (dia (fold_left (commitProperty r o) l s))
  = history (dia s) ++ map (opOf r) (writesOf r o l s).
Proof.
  revert s. induction l as [|name rest IH]; intros s.
  - simpl. now rewrite app_nil_r.
  - change (fold_left (commitProperty r o) (name :: rest) s)
      with (fold_left (commitProperty r o) rest (commitProperty r o s name)).
    rewrite IH, commitProperty_history.
    change (name :: rest) with ([name] ++ rest).
    rewrite writesOf_app, map_app, app_assoc. reflexivity.
Qed.

Lemma loop_modified (l : list string) (s : State) :
  modified (fold_left (commitProperty r o) l s)
  = modified s ++ (if propertyModified (insp s) then writesOf r o l s else []).
Proof.
  revert s. induction l as [|name rest IH]; intros s.
  - simpl. destruct (propertyModified (insp s)); now rewrite app_nil_r.
  - change (fold_left (commitProperty r o) (name :: rest) s)
      with (fold_left (commitProperty r o) rest (commitProperty r o s name)).
    rewrite IH, commitProperty_modified.
    destruct (commitProperty_config s name) as (_ & _ & -> & _).
    change (name :: rest) with ([name] ++ rest).
    rewrite writesOf_app.
    destruct (propertyModified (insp s)).
    + now rewrite app_assoc.
    + now rewrite !app_nil_r.
Qed.

Lemma loop_other_input (l : list string) (s : State) (k : string) :
  ~ In k l ->
  lookup k (_inspectedProperties (insp (fold_left (commitProperty r o) l s)))
  = lookup k (_inspectedProperties (insp s)).
Proof.
  revert s. induction l as [|name rest IH]; intros s Hk; simpl; auto.
  rewrite IH by (simpl in Hk; tauto).
  apply commitProperty_other_input. simpl in Hk. intuition congruence.
Qed.

Lemma loop_other_field (l : list string) (s : State) (k : string) :
  ~ In k l ->
  get (records (dia (fold_left (commitProperty r o) l s)) r) k
  = get (records (dia s) r) k.
Proof.
  revert s. induction l as [|name rest IH]; intros s Hk; simpl; auto.
  rewrite IH by (simpl in Hk; tauto).
  apply commitProperty_other_field. simpl in Hk. intuition congruence.
Qed.

Lemma loop_other_record (l : list string) (s : State) (r' : nat) :
  r' <> r ->
  records (dia (fold_left (commitProperty r o) l s)) r' = records (dia s) r'.
Proof.
  intros Hne. revert s. induction l as [|name rest IH]; intros s; simpl; auto.
  rewrite IH. now apply commitProperty_other_record.
Qed.

Lemma filter_named_absent (k : string) (ws : list (string * jsval))
      (l : list string) :
  (forall w, In w ws -> In (fst w) l) -> ~ In k l ->
  filter (named k) ws = [].
Proof.
  intros Hnames Hk. induction ws as [|w rest IH]; simpl; [reflexivity|].
  unfold named at 1. destruct (String.eqb_spec (fst w) k) as [E|_].
  - exfalso. apply Hk. rewrite <- E. apply Hnames. now left.
  - apply IH. intros w' Hw'. apply Hnames. now right.
Qed.

(** The writes of one row within the loop: those of its own turn. *)
Lemma writesOf_turn (pre post : list string) (k : string) (s : State) :
  ~ In k pre -> ~ In k post ->
  filter (named k) (writesOf r o (pre ++ k :: post) s)
  = filter (named k)
           (writesOf r o [k] (fold_left (commitProperty r o) pre s)).
Proof.
  intros Hpre Hpost.
  change (k :: post) with ([k] ++ post).
  rewrite !writesOf_app, !filter_app.
  rewrite (filter_named_absent k (writesOf r o pre s) pre);
    [|intros w; apply writesOf_names|assumption].
  rewrite (filter_named_absent k (writesOf r o post _) post);
    [|intros w; apply writesOf_names|assumption].
  now rewrite app_nil_r.
Qed.
End CommitFacts.

(** ** Building the rows *)

Section BuildFacts.
Context {P : Platform} {B : Browser}.

Lemma buildInput_disabled d i k v o :
  inspectedObject i = Some o ->
  disabled (buildInput d i k v)
  = negb (canEditProperty d k (lookup k (declaredProperties i)) o)
    || isReadOnly d.
Proof.
  intros Ho. unfold buildInput. rewrite Ho.
  destruct (lookup k (declaredProperties i)) as [desc|];
    repeat match goal with
           | |- context [if ?c then _ else _] => destruct c
           end;
    simpl; rewrite ?orb_true_r, ?orb_false_r; reflexivity.
Qed.

Lemma isColor_declaredType desc :
  isColor (type desc) = String.eqb (declaredType (Some desc)) "color".
Proof.
  unfold isColor, declaredType. now destruct (type desc).
Qed.

Lemma buildInput_listeners d i k v :
  listeners (buildInput d i k v)
  = expectedListeners (lookup k (declaredProperties i))
                      (in_type (buildInput d i k v)).
Proof.
  unfold buildInput, expectedListeners.
  destruct (lookup k (declaredProperties i)) as [desc|].
  - rewrite isColor_declaredType.
    destruct (String.eqb (declaredType (Some desc)) "color") eqn:Hc.
    + repeat match goal with
             | |- context [if ?c then _ else _] =>
                 let E := fresh "E" in destruct c eqn:E; simpl in *
             end; try reflexivity; try congruence.
    + cbn [andb].
      repeat match goal with
             | |- context [if ?c then _ else _] =>
                 let E := fresh "E" in destruct c eqn:E; simpl in *
             end; try reflexivity; try congruence.
  - repeat match goal with
           | |- context [if ?c then _ else _] =>
               let E := fresh "E" in destruct c eqn:E; simpl in *
           end; try reflexivity; try congruence.
Qed.
End BuildFacts.

Section TableFacts.
Context {P : Platform} {B : Browser}.
Variables (d : Diagram) (o : objref) (data : list (string * jsval)).

Lemma showDeclared_shape acc k :
  (shownDeclared d o (declaredProperties (fst acc)) k = true
   /\ exists v, showDeclared d o data acc k = appended d acc k v)
  \/ (shownDeclared d o (declaredProperties (fst acc)) k = false
      /\ showDeclared d o data acc k = acc).
Proof.
  destruct acc as [i tbody]. unfold showDeclared, shownDeclared. simpl.
  destruct (lookup k (declaredProperties i)) as [desc|]; [|now right].
  destruct (canShowProperty d k desc o); simpl; [left|now right].
  split; [reflexivity|]. eexists. reflexivity.
Qed.

Lemma showOwn_shape acc k :
  (k <> "__gohashid"
   /\ hasKey k (_inspectedProperties (fst acc)) = false
   /\ hiddenDeclared d o (declaredProperties (fst acc)) k = false
   /\ showOwn d o data acc k = appended d acc k (get data k))
  \/ ((k = "__gohashid"
       \/ hasKey k (_inspectedProperties (fst acc)) = true
       \/ hiddenDeclared d o (declaredProperties (fst acc)) k = true)
      /\ showOwn d o data acc k = acc).
Proof.
  destruct acc as [i tbody]. unfold showOwn, hiddenDeclared. simpl.
  destruct (String.eqb_spec k "__gohashid"); [now right; auto|].
  destruct (hasKey k (_inspectedProperties i)); [now right; auto|].
  destruct (lookup k (declaredProperties i)) as [desc|].
  - destruct (canShowProperty d k desc o); simpl; [left|right]; auto.
  - left. auto.
Qed.

Lemma appended_inv i0 Q acc k v :
  (forall i', declaredProperties i' = declaredProperties i0 ->
              inspectedObject i' = inspectedObject i0 ->
              forall k v, Q k (buildInput d i' k v)) ->
  tableInv i0 Q acc -> tableInv i0 Q (appended d acc k v).
Proof.
  intros HQ (Hopt & Hobj & Hdiv & Hrows & Hnd & Hin).
  destruct acc as [i tbody]. simpl in *.
  unfold tableInv, appended, sameOptions; simpl.
  repeat split; try apply Hopt; auto.
  - rewrite in_app_iff, In_keys_assoc_set. simpl.
    rewrite Hrows. intuition congruence.
  - rewrite in_app_iff, In_keys_assoc_set. simpl.
    rewrite Hrows. intuition congruence.
  - now apply NoDup_keys_assoc_set.
  - intros k' inp. destruct (string_dec k' k) as [->|Hne].
    + rewrite lookup_assoc_set_same. intros [= <-].
      apply HQ; [apply Hopt|assumption].
    + rewrite lookup_assoc_set_other by assumption. apply Hin.
Qed.

Lemma declared_loop_inv i0 Q l acc :
  (forall i', declaredProperties i' = declaredProperties i0 ->
              inspectedObject i' = inspectedObject i0 ->
              forall k v, Q k (buildInput d i' k v)) ->
  tableInv i0 Q acc ->
  tableInv i0 Q (fold_left (showDeclared d o data) l acc).
Proof.
  intros HQ. revert acc. induction l as [|k rest IH]; intros acc Hacc.
  - exact Hacc.
  - simpl. apply IH.
    destruct (showDeclared_shape acc k) as [[_ [v ->]]|[_ ->]]; auto.
    now apply appended_inv.
Qed.

Lemma own_loop_inv i0 Q l acc :
  (forall i', declaredProperties i' = declaredProperties i0 ->
              inspectedObject i' = inspectedObject i0 ->
              forall k v, Q k (buildInput d i' k v)) ->
  tableInv i0 Q acc ->
  tableInv i0 Q (fold_left (showOwn d o data) l acc).
Proof.
  intros HQ. revert acc. induction l as [|k rest IH]; intros acc Hacc.
  - exact Hacc.
  - simpl. apply IH.
    destruct (showOwn_shape acc k) as [(_ & _ & _ & ->)|[_ ->]]; auto.
    now apply appended_inv.
Qed.

Lemma declared_loop_rows i0 Q l acc :
  tableInv i0 Q acc ->
  (forall i', declaredProperties i' = declaredProperties i0 ->
              inspectedObject i' = inspectedObject i0 ->
              forall k v, Q k (buildInput d i' k v)) ->
  forall k,
    In k (snd (fold_left (showDeclared d o data) l acc))
    <-> In k (snd acc)
        \/ (In k l /\ shownDeclared d o (declaredProperties i0) k = true).
Proof.
  intros Hacc HQ. revert acc Hacc.
  induction l as [|h rest IH]; intros acc Hacc k.
  - simpl. tauto.
  - assert (Hdecl : declaredProperties (fst acc) = declaredProperties i0)
      by apply Hacc.
    simpl fold_left.
    destruct (showDeclared_shape acc h) as [[Hs [v E]]|[Hs E]];
      rewrite E, Hdecl in *.
    + rewrite IH by now apply appended_inv.
      simpl. rewrite in_app_iff. simpl.
      split; [intros [[H|[<-|[]]]|[H1 H2]]|intros [H|[[<-|H1] H2]]]; auto.
    + rewrite IH by assumption. simpl.
      split; [intros [H|[H1 H2]]|intros [H|[[<-|H1] H2]]]; auto.
      congruence.
Qed.

Lemma own_loop_rows i0 Q l acc :
  tableInv i0 Q acc ->
  (forall i', declaredProperties i' = declaredProperties i0 ->
              inspectedObject i' = inspectedObject i0 ->
              forall k v, Q k (buildInput d i' k v)) ->
  forall k,
    In k (snd (fold_left (showOwn d o data) l acc))
    <-> In k (snd acc)
        \/ (In k l /\ k <> "__gohashid"
            /\ hiddenDeclared d o (declaredProperties i0) k = false).
Proof.
  intros Hacc HQ. revert acc Hacc.
  induction l as [|h rest IH]; intros acc Hacc k.
  - simpl. tauto.
  - assert (Hdecl : declaredProperties (fst acc) = declaredProperties i0)
      by apply Hacc.
    assert (Hrows : forall k, In k (snd acc)
              <-> In k (keys (_inspectedProperties (fst acc))))
      by apply Hacc.
    simpl fold_left.
    destruct (showOwn_shape acc h) as [(H1 & H2 & H3 & E)|[Hskip E]];
      rewrite E in *; rewrite Hdecl in *.
    + rewrite IH by now apply appended_inv.
      simpl. rewrite in_app_iff. simpl.
      split.
      * intros [[H|[<-|[]]]|(Ha & Hb & Hc)]; auto.
      * intros [H|([<-|Ha] & Hb & Hc)]; auto.
    + rewrite IH by assumption. simpl.
      split.
      * intros [H|(Ha & Hb & Hc)]; auto.
      * intros [H|([<-|Ha] & Hb & Hc)]; auto.
        destruct Hskip as [Hg|[Hk|Hh]]; try congruence.
        left. apply Hrows. now apply hasKey_In.
Qed.

(** With distinct declared names every row is appended for a name that
    has no input yet, so the rows are the inputs, in order. *)
Lemma declared_loop_order l acc :
  NoDup l ->
  (forall k, In k l -> ~ In k (keys (_inspectedProperties (fst acc)))) ->
  snd acc = keys (_inspectedProperties (fst acc)) ->
  let res := fold_left (showDeclared d o data) l acc in
  snd res = keys (_inspectedProperties (fst res)).
Proof.
  revert acc. induction l as [|h rest IH]; intros acc Hnd Hfresh Hacc.
  - exact Hacc.
  - simpl. inversion Hnd as [|? ? Hh Hrest]; subst.
    destruct (showDeclared_shape acc h) as [[_ [v ->]]|[_ ->]].
    + apply IH; auto.
      * intros k Hk. destruct acc as [i tbody]. simpl.
        rewrite In_keys_assoc_set. intros [->|Hin]; [contradiction|].
        apply (Hfresh k); simpl; auto.
      * destruct acc as [i tbody]. simpl in *.
        rewrite keys_assoc_set_fresh; [now rewrite Hacc|].
        apply Hfresh. now left.
    + apply IH; auto. intros k Hk. apply Hfresh. now right.
Qed.

Lemma own_loop_order l acc :
  snd acc = keys (_inspectedProperties (fst acc)) ->
  let res := fold_left (showOwn d o data) l acc in
  snd res = keys (_inspectedProperties (fst res)).
Proof.
  revert acc. induction l as [|h rest IH]; intros acc Hacc.
  - exact Hacc.
  - simpl.
    destruct (showOwn_shape acc h) as [(_ & Hk & _ & ->)|[_ ->]].
    + apply IH. destruct acc as [i tbody]. simpl in *.
      rewrite keys_assoc_set_fresh; [now rewrite Hacc|].
      intros Hin. apply hasKey_In in Hin. congruence.
    + now apply IH.
Qed.
End TableFacts.

(** ** Inputs change only in value once built *)

Section InputFacts.
Context {P : Platform} {B : Browser}.

Lemma sameButValue_refl (a : input) : sameButValue a a.
Proof. repeat split. Qed.

Lemma sameButValue_trans (a b c : input) :
  sameButValue a b -> sameButValue b c -> sameButValue a c.
Proof.
  unfold sameButValue. intuition congruence.
Qed.

Lemma sameButValue_set_value (v : string) (a : input) :
  sameButValue a (set_value v a).
Proof. repeat split. Qed.

Lemma sameButValue_refreshed data (k : string) (a : input) :
  sameButValue a (refreshed data k a).
Proof.
  unfold refreshed.
  destruct data; destruct (String.eqb (in_type a) "color");
    apply sameButValue_set_value.
Qed.

Lemma lookup_map_values {A A' : Type} (f : string -> A -> A') (k : string)
      (l : list (string * A)) :
  lookup k (map (fun e => (fst e, f (fst e) (snd e))) l)
  = option_map (f k) (lookup k l).
Proof.
  induction l as [|[k' v] rest IH]; simpl; [reflexivity|].
  destruct (String.eqb_spec k k') as [->|]; auto.
Qed.

Lemma keys_map_values {A A' : Type} (f : string -> A -> A')
      (l : list (string * A)) :
  keys (map (fun e => (fst e, f (fst e) (snd e))) l) = keys l.
Proof.
  unfold keys. rewrite map_map. reflexivity.
Qed.

Lemma commitProperty_inputs r o s name k inp' :
  lookup k (_inspectedProperties (insp (commitProperty r o s name)))
  = Some inp' ->
  exists inp,
    lookup k (_inspectedProperties (insp s)) = Some inp
    /\ sameButValue inp inp'.
Proof.
  unfold commitProperty.
  destruct (lookup name (_inspectedProperties (insp s))) as [inp0|] eqn:E0;
    [|intros H; eauto using sameButValue_refl].
  destruct (canEditProperty _ _ _ _); simpl;
    [|intros H; eauto using sameButValue_refl].
  destruct (string_dec k name) as [->|Hne].
  - rewrite lookup_assoc_set_same. intros [= <-].
    eauto using sameButValue_set_value.
  - rewrite lookup_assoc_set_other by assumption.
    eauto using sameButValue_refl.
Qed.

Lemma loop_inputs r o l s k inp' :
  lookup k (_inspectedProperties (insp (fold_left (commitProperty r o) l s)))
  = Some inp' ->
  exists inp,
    lookup k (_inspectedProperties (insp s)) = Some inp
    /\ sameButValue inp inp'.
Proof.
  revert s. induction l as [|name rest IH]; intros s; simpl.
  - eauto using sameButValue_refl.
  - intros H. apply IH in H as [inp1 [H1 S1]].
    apply commitProperty_inputs in H1 as [inp [H0 S0]].
    eauto using sameButValue_trans.
Qed.

Lemma updateAllProperties_inputs st k inp' :
  lookup k (_inspectedProperties (insp (updateAllProperties st))) = Some inp' ->
  exists inp,
    lookup k (_inspectedProperties (insp st)) = Some inp
    /\ sameButValue inp inp'.
Proof.
  unfold updateAllProperties.
  destruct (inspectedObject (insp st)) as [o|];
    [|eauto using sameButValue_refl].
  destruct (dataOf (dia st) (Some o)) as [r|];
    [|eauto using sameButValue_refl].
  simpl. intros H. now apply loop_inputs in H.
Qed.

Lemma updateAllProperties_config st :
  let st' := updateAllProperties st in
  declaredProperties (insp st') = declaredProperties (insp st)
  /\ inspectedObject (insp st') = inspectedObject (insp st)
  /\ propertyModified (insp st') = propertyModified (insp st)
  /\ _div (insp st') = _div (insp st)
  /\ keys (_inspectedProperties (insp st'))
     = keys (_inspectedProperties (insp st)).
Proof.
  unfold updateAllProperties.
  destruct (inspectedObject (insp st)) as [o|] eqn:Ho; [|repeat split; auto].
  destruct (dataOf (dia st) (Some o)) as [r|]; [|repeat split; auto].
  pose proof (loop_config r o (keys (_inspectedProperties (insp st)))
                (withDiagram (startTransaction "set all properties") st))
    as H.
  simpl in H |- *. rewrite Ho in H. exact H.
Qed.

Lemma updateAllHTML_config st :
  let st' := updateAllHTML st in
  declaredProperties (insp st') = declaredProperties (insp st)
  /\ inspectedObject (insp st') = inspectedObject (insp st)
  /\ _div (insp st') = _div (insp st)
  /\ keys (_inspectedProperties (insp st'))
     = keys (_inspectedProperties (insp st))
  /\ dia st' = dia st
  /\ modified st' = modified st.
Proof.
  unfold updateAllHTML. simpl. repeat split.
  apply keys_map_values.
Qed.

Lemma updateAllHTML_inputs st k :
  lookup k (_inspectedProperties (insp (updateAllHTML st)))
  = option_map
      (refreshed
         match dataOf (dia st) (inspectedObject (insp st)) with
         | Some r => Some (records (dia st) r)
         | None => None
         end k)
      (lookup k (_inspectedProperties (insp st))).
Proof.
  unfold updateAllHTML. simpl. apply lookup_map_values.
Qed.

(** The table built by [inspectObject]: every input in it satisfies what
    [buildInput] guarantees, and the inputs have distinct names. *)
Lemma buildTable_inputs d o data i (Q : string -> input -> Prop) :
  (forall i', declaredProperties i' = declaredProperties i ->
              inspectedObject i' = inspectedObject i ->
              forall k v, Q k (buildInput d i' k v)) ->
  tableInv (set_tabIndex 0 (set_inspectedProperties [] i)) Q
           (let i0 := set_tabIndex 0 (set_inspectedProperties [] i) in
            let built :=
              fold_left (showDeclared d o data)
                        (keys (declaredProperties i0)) (i0, []) in
            if includesOwnProperties (fst built)
            then fold_left (showOwn d o data) (keys data) built
            else built).
Proof.
  intros HQ.
  set (i0 := set_tabIndex 0 (set_inspectedProperties [] i)).
  assert (H0 : tableInv i0 Q (i0, [])).
  { unfold tableInv, sameOptions. simpl. repeat split; auto; try tauto.
    - constructor.
    - discriminate. }
  assert (H1 : tableInv i0 Q
                 (fold_left (showDeclared d o data)
                            (keys (declaredProperties i0)) (i0, []))).
  { apply declared_loop_inv; auto. }
  cbv zeta.
  destruct (includesOwnProperties _); [|exact H1].
  apply own_loop_inv; auto.
Qed.

Lemma buildTable_spec d o data i (Q : string -> input -> Prop) :
  (forall i', declaredProperties i' = declaredProperties i ->
              inspectedObject i' = inspectedObject i ->
              forall k v, Q k (buildInput d i' k v)) ->
  let t := buildTable d o data i in
  sameOptions i t
  /\ inspectedObject t = inspectedObject i
  /\ (forall k, In k (_div t) <-> In k (keys (_inspectedProperties t)))
  /\ NoDup (keys (_inspectedProperties t))
  /\ (forall k inp, lookup k (_inspectedProperties t) = Some inp -> Q k inp).
Proof.
  intros HQ. pose proof (buildTable_inputs d o data i Q HQ) as Hinv.
  cbv zeta in Hinv. unfold buildTable. cbv zeta.
  match type of Hinv with tableInv _ _ ?acc => set (built := acc) in * end.
  destruct Hinv as (Hopt & Hobj & _ & Hrows & Hnd & Hin).
  unfold set_div. simpl. repeat split; auto; try apply Hopt; apply Hrows.
Qed.

Lemma reachable_rows st :
  reachable st ->
  NoDup (keys (_inspectedProperties (insp st)))
  /\ listenersAsBuilt (insp st).
Proof.
  induction 1 as [options d|object st Hst [IHn IHl]|ev name st Hst [IHn IHl]
                  |st Hst [IHn IHl]|name text st Hst [IHn IHl]
                  |d st Hst [IHn IHl]].
  - split; [|intros k inp; destruct options; discriminate].
    destruct options; constructor.
  - assert (Hhtml : forall i',
               _inspectedProperties i' = _inspectedProperties (insp st) ->
               declaredProperties i' = declaredProperties (insp st) ->
               let st' := updateAllHTML (mkState i' (dia st) (modified st)) in
               NoDup (keys (_inspectedProperties (insp st')))
               /\ listenersAsBuilt (insp st')).
    { intros i' Hp Hd st'. split.
      - unfold st', updateAllHTML. simpl. rewrite keys_map_values, Hp.
        exact IHn.
      - intros k inp. unfold st'. rewrite updateAllHTML_inputs. simpl.
        rewrite Hp, Hd.
        destruct (lookup k (_inspectedProperties (insp st))) as [inp0|] eqn:E;
          [|discriminate].
        simpl. intros [= <-].
        destruct (sameButValue_refreshed
                    match dataOf (dia st) (inspectedObject i') with
                    | Some r => Some (records (dia st) r)
                    | None => None
                    end k inp0) as (_ & _ & -> & _ & ->).
        now apply IHl. }
    unfold inspectObject.
    destruct (resolve object st) as [o|]; [|now apply Hhtml].
    destruct (sameObject (inspectedObject (insp st)) (Some o));
      [now apply Hhtml|].
    destruct (dataOf (dia st) (Some o)) as [r|]; [|split; assumption].
    cbn [insp].
    destruct (buildTable_spec (dia st) o (records (dia st) r)
                (set_div [] (set_inspectedObject (Some o) (insp st)))
                (fun k inp =>
                   listeners inp
                   = expectedListeners
                       (lookup k (declaredProperties (insp st)))
                       (in_type inp)))
      as ((Hd & _) & _ & _ & Hnd & HQ).
    { intros i' Hd _ k v. simpl in Hd. rewrite <- Hd.
      apply buildInput_listeners. }
    split; [exact Hnd|].
    intros k inp Hk. rewrite Hd. now apply HQ.
  - unfold dispatch.
    destruct (lookup name (_inspectedProperties (insp st))); [|now split].
    destruct (mem ev (listeners i)); [|now split].
    destruct (updateAllProperties_config st) as (Hd & _ & _ & _ & Hk).
    split; [now rewrite Hk|].
    intros k inp' Hk'. rewrite Hd.
    apply updateAllProperties_inputs in Hk' as [inp [H0 (_ & _ & -> & _ & ->)]].
    now apply IHl.
  - destruct (updateAllProperties_config st) as (Hd & _ & _ & _ & Hk).
    split; [now rewrite Hk|].
    intros k inp' Hk'. rewrite Hd.
    apply updateAllProperties_inputs in Hk' as [inp [H0 (_ & _ & -> & _ & ->)]].
    now apply IHl.
  - unfold typeInto.
    destruct (lookup name (_inspectedProperties (insp st))) as [inp0|] eqn:E;
      [|now split].
    simpl. split; [now apply NoDup_keys_assoc_set|].
    intros k inp. simpl. destruct (string_dec k name) as [->|Hne].
    + rewrite lookup_assoc_set_same. intros [= <-]. simpl. now apply IHl.
    + rewrite lookup_assoc_set_other by assumption. apply IHl.
  - now split.
Qed.
End InputFacts.

(** ** Committing the rows (C1, C4, C6, C7, C10) *)

Section CommitClaims.
Context {P : Platform} {B : Browser}.

Lemma skipn_length_app {A : Type} (l x : list A) :
  skipn (length l) (l ++ x) = x.
Proof.
  induction l; simpl; auto.
Qed.

Lemma sameObject_true (a b : option objref) :
  sameObject a b = true <-> a = b.
Proof.
  destruct a as [[x|x]|], b as [[y|y]|]; simpl; split; intros H;
    try discriminate; try reflexivity;
    try (apply Nat.eqb_eq in H; congruence);
    try (injection H as ->; apply Nat.eqb_refl).
Qed.

Lemma commitProperty_written r o s k inp :
  lookup k (_inspectedProperties (insp s)) = Some inp ->
  canEditProperty (dia s) k (lookup k (declaredProperties (insp s))) o = true ->
  get (records (dia (commitProperty r o s k)) r) k
  = convertValue
      (effectiveType (lookup k (declaredProperties (insp s)))
                     (get (records (dia s) r) k))
      (value inp).
Proof.
  intros Hinp Hedit. unfold commitProperty. rewrite Hinp, Hedit. simpl.
  rewrite Nat.eqb_refl. unfold get at 1.
  now rewrite lookup_assoc_set_same.
Qed.

Lemma commitProperty_skipped r o s k :
  canEditProperty (dia s) k (lookup k (declaredProperties (insp s))) o = false ->
  commitProperty r o s k = s.
Proof.
  intros Hedit. unfold commitProperty. rewrite Hedit.
  now destruct (lookup k (_inspectedProperties (insp s))).
Qed.

(** The shape of a commit when the data object is there. *)
Lemma updateAllProperties_shape st o r :
  inspectedObject (insp st) = Some o ->
  dataOf (dia st) (Some o) = Some r ->
  updateAllProperties st
  = withDiagram (commitTransaction "set all properties")
      (fold_left (commitProperty r o)
                 (keys (_inspectedProperties (insp st)))
                 (withDiagram (startTransaction "set all properties") st)).
Proof.
  intros Ho Hr. unfold updateAllProperties. now rewrite Ho, Hr.
Qed.

Lemma split_NoDup {A : Type} (pre post : list A) (k : A) :
  NoDup (pre ++ k :: post) -> ~ In k pre /\ ~ In k post.
Proof.
  intros H. apply NoDup_remove_2 in H. rewrite in_app_iff in H. tauto.
Qed.

(** The row [k] within a commit: what the loop writes for it is what its
    own turn writes, and nothing else touches its field. *)
Lemma commit_row st o r pre k post :
  NoDup (keys (_inspectedProperties (insp st))) ->
  inspectedObject (insp st) = Some o ->
  dataOf (dia st) (Some o) = Some r ->
  keys (_inspectedProperties (insp st)) = pre ++ k :: post ->
  let start := withDiagram (startTransaction "set all properties") st in
  let turn := fold_left (commitProperty r o) pre start in
  let st' := updateAllProperties st in
  filter (named k)
         (writesOf r o (keys (_inspectedProperties (insp st))) start)
  = filter (named k) (writesOf r o [k] turn)
  /\ lookup k (_inspectedProperties (insp turn))
     = lookup k (_inspectedProperties (insp st))
  /\ get (records (dia turn) r) k = get (records (dia st) r) k
  /\ declaredProperties (insp turn) = declaredProperties (insp st)
  /\ get (records (dia st') r) k
     = get (records (dia (commitProperty r o turn k)) r) k.
Proof.
  intros Hnd Ho Hr Hkeys start turn st'.
  rewrite Hkeys in Hnd. apply split_NoDup in Hnd as [Hpre Hpost].
  repeat split.
  - rewrite Hkeys. now apply writesOf_turn.
  - unfold turn. now rewrite loop_other_input.
  - unfold turn. now rewrite loop_other_field.
  - unfold turn. now destruct (loop_config r o pre start) as (-> & _).
  - unfold st'. rewrite (updateAllProperties_shape st o r Ho Hr), Hkeys.
    rewrite fold_left_app. simpl.
    now rewrite loop_other_field.
Qed.

Lemma filter_named_nil k (ws : list (string * jsval)) :
  filter (named k) ws = [] -> forall v, ~ In (k, v) ws.
Proof.
  intros H v Hin.
  assert (Hf : In (k, v) (filter (named k) ws)).
  { apply filter_In. split; [assumption|]. unfold named. simpl.
    apply String.eqb_refl. }
  rewrite H in Hf. destruct Hf.
Qed.

(** A row that is not editable when its turn comes is neither written nor
    reported. *)
Lemma commit_skips st o r pre k post :
  NoDup (keys (_inspectedProperties (insp st))) ->
  inspectedObject (insp st) = Some o ->
  dataOf (dia st) (Some o) = Some r ->
  keys (_inspectedProperties (insp st)) = pre ++ k :: post ->
  canEditProperty
    (dia (fold_left (commitProperty r o) pre
            (withDiagram (startTransaction "set all properties") st)))
    k (lookup k (declaredProperties (insp st))) o = false ->
  let st' := updateAllProperties st in
  (forall v, ~ In (SetDataProperty r k v) (newOps st st'))
  /\ (forall v, ~ In (k, v) (newCalls st st'))
  /\ get (records (dia st') r) k = get (records (dia st) r) k.
Proof.
  intros Hnd Ho Hr Hkeys Hedit. cbv zeta.
  destruct (commit_row st o r pre k post Hnd Ho Hr Hkeys)
    as (Hw & Hinp & Hfield & Hdecl & Hfinal).
  set (start := withDiagram (startTransaction "set all properties") st) in *.
  set (turn := fold_left (commitProperty r o) pre start) in *.
  assert (Hnone : filter (named k)
                    (writesOf r o (keys (_inspectedProperties (insp st)))
                              start) = []).
  { rewrite Hw. simpl. rewrite Hdecl, Hedit.
    now destruct (lookup k (_inspectedProperties (insp turn))). }
  assert (Hst' : updateAllProperties st = withDiagram (commitTransaction "set all properties")
                         (fold_left (commitProperty r o)
                            (keys (_inspectedProperties (insp st))) start))
    by (apply updateAllProperties_shape; assumption).
  repeat split.
  - intros v Hin. unfold newOps in Hin. rewrite Hst' in Hin. simpl in Hin.
    rewrite loop_history in Hin. simpl in Hin.
    rewrite <- !app_assoc, skipn_length_app in Hin.
    simpl in Hin. destruct Hin as [Hin|Hin]; [discriminate|].
    apply in_app_iff in Hin as [Hin|[Hin|[]]]; [|discriminate].
    apply in_map_iff in Hin as [[k' v'] [E Hin]].
    unfold opOf in E. simpl in E. injection E as -> ->.
    now apply (filter_named_nil _ _ Hnone v).
  - intros v Hin. unfold newCalls in Hin. rewrite Hst' in Hin. simpl in Hin.
    rewrite loop_modified in Hin. simpl in Hin.
    rewrite skipn_length_app in Hin.
    destruct (propertyModified (insp st)); [|destruct Hin].
    now apply (filter_named_nil _ _ Hnone v).
  - rewrite Hfinal, commitProperty_skipped; [assumption|].
    now rewrite Hdecl.
Qed.

(** C10. When the inspected object is null or has no data record,
    [updateAllProperties] returns at once: the state is unchanged, so no
    transaction is started or committed, nothing is written to the model,
    the callback is not called, and the model and its history are as they
    were. *)
Theorem commit_without_data (st : State) :
  inspectedObject (insp st) = None
  \/ dataOf (dia st) (inspectedObject (insp st)) = None ->
  updateAllProperties st = st.
Proof.
  unfold updateAllProperties. intros [H|H].
  - now rewrite H.
  - rewrite H. now destruct (inspectedObject (insp st)).
Qed.

(** C4. A row committed with the boolean type, declared or inferred from a
    stored boolean, is written as a boolean that is false exactly when the
    input holds the text false or 0; over all values the parse is false
    exactly on the boolean false and these two texts, and true on every
    other value. *)
Theorem boolean_commit (st : State) (r : nat) (o : objref) (name : string)
        (inp : input) :
  lookup name (_inspectedProperties (insp st)) = Some inp ->
  canEditProperty (dia st) name
    (lookup name (declaredProperties (insp st))) o = true ->
  declaredType (lookup name (declaredProperties (insp st))) = "boolean"
  \/ (declaredType (lookup name (declaredProperties (insp st))) = EmptyString
      /\ exists b, get (records (dia st) r) name = VBool b) ->
  exists b,
    history (dia (commitProperty r o st name))
    = history (dia st) ++ [SetDataProperty r name (VBool b)]
    /\ b = parseBoolean (VStr (value inp))
    /\ (b = false <-> value inp = "false" \/ value inp = "0")
    /\ (forall v, parseBoolean v = false
                  <-> v = VBool false \/ v = VStr "false" \/ v = VStr "0")
    /\ (forall v, parseBoolean v = true
                  <-> v <> VBool false /\ v <> VStr "false" /\ v <> VStr "0").
Proof.
  intros Hinp Hedit Htype.
  assert (Heff : effectiveType (lookup name (declaredProperties (insp st)))
                               (get (records (dia st) r) name) = "boolean").
  { unfold effectiveType. destruct Htype as [ -> | [ -> [b -> ] ] ]; reflexivity. }
  exists (parseBoolean (VStr (value inp))).
  split; [|split; [reflexivity|split; [|split]]].
  - unfold commitProperty. rewrite Hinp, Hedit. simpl. rewrite Heff.
    reflexivity.
  - rewrite parseBoolean_false.
    split; [intros [H|[H|H]]|intros [ -> | -> ]]; auto; try discriminate;
      injection H as ->; auto.
  - apply parseBoolean_false.
  - intros v. rewrite <- not_false_iff_true, parseBoolean_false. tauto.
Qed.
End CommitClaims.

Section CommitTransaction.
Context {P : Platform} {B : Browser}.

Lemma filter_named_single k (v : jsval) :
  filter (named k) [(k, v)] = [(k, v)].
Proof.
  simpl. unfold named. simpl. now rewrite String.eqb_refl.
Qed.

Lemma writesOf_single r o k s :
  writesOf r o [k] s
  = match lookup k (_inspectedProperties (insp s)) with
    | Some inp =>
        if canEditProperty (dia s) k
             (lookup k (declaredProperties (insp s))) o
        then [(k,
               convertValue
                 (effectiveType (lookup k (declaredProperties (insp s)))
                                (get (records (dia s) r) k))
                 (value inp))]
        else []
    | None => []
    end.
Proof.
  simpl. now rewrite app_nil_r.
Qed.

End CommitTransaction.

(** ** Read-only properties (C6, C7) *)

Section ReadOnlyClaims.
Context {P : Platform} {B : Browser}.

Lemma inspect_rebuild object st o r :
  resolve object st = Some o ->
  sameObject (inspectedObject (insp st)) (Some o) = false ->
  dataOf (dia st) (Some o) = Some r ->
  inspectObject object st
  = mkState
      (buildTable (dia st) o (records (dia st) r)
                  (set_div [] (set_inspectedObject (Some o) (insp st))))
      (dia st) (modified st).
Proof.
  intros Hres Hdiff Hdata. unfold inspectObject.
  now rewrite Hres, Hdiff, Hdata.
Qed.

Lemma rebuilt_disabled object st o r k inp :
  resolve object st = Some o ->
  sameObject (inspectedObject (insp st)) (Some o) = false ->
  dataOf (dia st) (Some o) = Some r ->
  lookup k (_inspectedProperties (insp (inspectObject object st))) = Some inp ->
  disabled inp
  = negb (canEditProperty (dia st) k
            (lookup k (declaredProperties (insp st))) o)
    || isReadOnly (dia st).
Proof.
  intros Hres Hdiff Hdata.
  rewrite (inspect_rebuild object st o r Hres Hdiff Hdata). cbn [insp].
  destruct (buildTable_spec (dia st) o (records (dia st) r)
              (set_div [] (set_inspectedObject (Some o) (insp st)))
              (fun k inp =>
                 disabled inp
                 = negb (canEditProperty (dia st) k
                           (lookup k (declaredProperties (insp st))) o)
                   || isReadOnly (dia st)))
    as (_ & _ & _ & _ & HQ).
  - intros i' Hd Hobj k' v. simpl in Hd, Hobj. rewrite <- Hd.
    now apply buildInput_disabled.
  - apply HQ.
Qed.

Lemma canEdit_function d k decProp o r src :
  dataOf d (Some o) = Some r ->
  get (records d r) k = VFunction src ->
  canEditProperty d k decProp o = false.
Proof.
  intros Hr Hf. unfold canEditProperty. now rewrite Hr, Hf.
Qed.

Lemma canEdit_flag d k desc o :
  readOnly desc = Flag true ->
  canEditProperty d k (Some desc) o = false.
Proof.
  intros Hro. unfold canEditProperty. rewrite Hro.
  destruct (dataOf d (Some o)); [|reflexivity].
  now destruct (get _ _).
Qed.

Lemma canEdit_predicate d k desc o p :
  readOnly desc = Pred p ->
  p d o k = true ->
  canEditProperty d k (Some desc) o = false.
Proof.
  intros Hro Hp. unfold canEditProperty. rewrite Hro, Hp.
  destruct (dataOf d (Some o)); [|reflexivity].
  now destruct (get _ _).
Qed.

Lemma turn_data st o r pre :
  dataOf (dia st) (Some o) = Some r ->
  dataOf
    (dia (fold_left (commitProperty r o) pre
            (withDiagram (startTransaction "set all properties") st)))
    (Some o) = Some r.
Proof.
  intros Hr.
  destruct (loop_diagram r o pre
              (withDiagram (startTransaction "set all properties") st))
    as (_ & _ & Hparts).
  unfold dataOf in *. destruct o; [|assumption].
  now rewrite Hparts.
Qed.

(** C6. For a declared property whose readOnly entry is a predicate: when
    the rows are rebuilt and the predicate returns true for the inspected
    object, the input generated for the property is disabled; and in a
    commit, when the predicate returns true for the inspected object as the
    property's turn comes, no setDataProperty is issued for the property,
    the callback is not called for it, and its field keeps its value. *)
Theorem readOnly_predicate (k : string) (desc : propertyDesc)
        (p : Diagram -> objref -> string -> bool) :
  readOnly desc = Pred p ->
  (forall object st o r inp,
      lookup k (declaredProperties (insp st)) = Some desc ->
      resolve object st = Some o ->
      sameObject (inspectedObject (insp st)) (Some o) = false ->
      dataOf (dia st) (Some o) = Some r ->
      p (dia st) o k = true ->
      lookup k (_inspectedProperties (insp (inspectObject object st)))
      = Some inp ->
      disabled inp = true)
  /\ (forall st o r pre post,
         reachable st ->
         lookup k (declaredProperties (insp st)) = Some desc ->
         inspectedObject (insp st) = Some o ->
         dataOf (dia st) (Some o) = Some r ->
         keys (_inspectedProperties (insp st)) = pre ++ k :: post ->
         p (dia (fold_left (commitProperty r o) pre
                   (withDiagram (startTransaction "set all properties") st)))
           o k = true ->
         let st' := updateAllProperties st in
         (forall v, ~ In (SetDataProperty r k v) (newOps st st'))
         /\ (forall v, ~ In (k, v) (newCalls st st'))
         /\ get (records (dia st') r) k = get (records (dia st) r) k).
Proof.
  intros Hro. split.
  - intros object st o r inp Hdesc Hres Hdiff Hdata Hp Hinp.
    rewrite (rebuilt_disabled object st o r k inp Hres Hdiff Hdata Hinp).
    rewrite Hdesc, (canEdit_predicate _ _ _ _ _ Hro Hp). reflexivity.
  - intros st o r pre post Hreach Hdesc Ho Hr Hkeys Hp.
    destruct (reachable_rows st Hreach) as [Hnd _].
    apply (commit_skips st o r pre k post Hnd Ho Hr Hkeys).
    rewrite Hdesc. now apply (canEdit_predicate _ _ _ _ _ Hro).
Qed.

End ReadOnlyClaims.

(** ** Rebuilding and refreshing the rows (C2, C3) *)

Section RowClaims.
Context {P : Platform} {B : Browser}.

Lemma shownDeclared_In d o declared k :
  shownDeclared d o declared k = true -> In k (keys declared).
Proof.
  unfold shownDeclared.
  destruct (lookup k declared) eqn:E; [|discriminate].
  intros _. eapply lookup_Some_In; eauto.
Qed.

Lemma buildTable_rows d o data i k :
  In k (_div (buildTable d o data i))
  <-> shownDeclared d o (declaredProperties i) k = true
      \/ (includesOwnProperties i = true
          /\ In k (keys data)
          /\ k <> "__gohashid"
          /\ hiddenDeclared d o (declaredProperties i) k = false).
Proof.
  unfold buildTable. cbv zeta.
  set (i0 := set_tabIndex 0 (set_inspectedProperties [] i)).
  set (Q := fun (_ : string) (_ : input) => True).
  assert (HQ : forall i', declaredProperties i' = declaredProperties i0 ->
                          inspectedObject i' = inspectedObject i0 ->
                          forall k v, Q k (buildInput d i' k v))
    by (intros; exact I).
  assert (H0 : tableInv i0 Q (i0, [])).
  { unfold tableInv, sameOptions. simpl. repeat split; auto; try tauto.
    constructor. }
  pose proof (declared_loop_inv d o data i0 Q
                (keys (declaredProperties i0)) (i0, []) HQ H0) as H1.
  pose proof (declared_loop_rows d o data i0 Q
                (keys (declaredProperties i0)) (i0, []) H0 HQ) as R1.
  set (built := fold_left (showDeclared d o data)
                          (keys (declaredProperties i0)) (i0, [])) in *.
  assert (Hinc : includesOwnProperties (fst built) = includesOwnProperties i)
    by apply H1.
  rewrite Hinc. unfold set_div. cbn [_div].
  assert (Hshown : In k (snd built)
                   <-> shownDeclared d o (declaredProperties i) k = true).
  { rewrite R1. simpl. split; [tauto|].
    intros H. right. split; [|assumption].
    now apply shownDeclared_In in H. }
  destruct (includesOwnProperties i).
  - rewrite (own_loop_rows d o data i0 Q (keys data) built H1 HQ).
    rewrite Hshown. simpl. tauto.
  - rewrite Hshown. intuition discriminate.
Qed.

Lemma buildTable_order d o data i :
  NoDup (keys (declaredProperties i)) ->
  _div (buildTable d o data i)
  = keys (_inspectedProperties (buildTable d o data i)).
Proof.
  intros Hnd. unfold buildTable. cbv zeta.
  set (i0 := set_tabIndex 0 (set_inspectedProperties [] i)).
  assert (H1 : let res := fold_left (showDeclared d o data)
                            (keys (declaredProperties i0)) (i0, []) in
               snd res = keys (_inspectedProperties (fst res))).
  { apply declared_loop_order; auto. }
  cbv zeta in H1.
  set (built := fold_left (showDeclared d o data)
                          (keys (declaredProperties i0)) (i0, [])) in *.
  unfold set_div. cbn [_div _inspectedProperties].
  destruct (includesOwnProperties (fst built)); [|exact H1].
  now apply own_loop_order.
Qed.


End RowClaims.

(** ** The catalogue client (C8, C9) *)

Lemma append_assoc (a b c : string) :
  ((a ++ b) ++ c = a ++ (b ++ c))%string.
Proof.
  induction a as [|ch a IH]; simpl; [reflexivity|]. now rewrite IH.
Qed.

Lemma xml_head_filter :
  xml_head = (substring 0 728 xml_head ++ likeOpen ++ "%")%string.
Proof. vm_compute. reflexivity. Qed.

Lemma xml_tail_filter :
  xml_tail
  = ("%" ++ likeClose
      ++ substring (S (String.length likeClose)) (String.length xml_tail)
                   xml_tail)%string.
Proof. vm_compute. reflexivity. Qed.

(** C9. Whatever the execution identifier, the body of the request is the
    fixed text of the template with, inside the PropertyIsLike filter on
    dc:title, the literal made of a percent sign, the identifier exactly as
    given, and a percent sign; the body for abc123 contains %abc123%. *)
Theorem request_body_wildcards (endpoint : string) (T : Type)
        (parse : string -> parsing T) :
  (exists pre post,
      forall executionId,
        req_body (fst (getExecutionResults endpoint T parse executionId))
        = (pre ++ likeOpen ++ "%" ++ executionId ++ "%" ++ likeClose
               ++ post)%string)
  /\ exists pre post,
      req_body (fst (getExecutionResults endpoint T parse "abc123"))
      = (pre ++ "%abc123%" ++ post)%string.
Proof.
  assert (Hbody : forall executionId,
             req_body (fst (getExecutionResults endpoint T parse executionId))
             = (substring 0 728 xml_head ++ likeOpen ++ "%" ++ executionId
                 ++ "%" ++ likeClose
                 ++ substring (S (String.length likeClose))
                              (String.length xml_tail) xml_tail)%string).
  { intros executionId. simpl. unfold xml.
    rewrite xml_head_filter at 1. rewrite xml_tail_filter at 1.
    now rewrite !append_assoc. }
  split.
  - eexists. eexists. exact Hbody.
  - exists (substring 0 728 xml_head ++ likeOpen)%string.
    eexists. rewrite Hbody. rewrite !append_assoc. reflexivity.
Qed.

(** C8, as the code has it. Whenever the parser hands its outcome to the
    callback, with an error or without, the function given to map returns
    the result it was handed (undefined when there is none) and the error
    is dropped; only an error the parser itself throws is raised. *)
Theorem parse_outcome (endpoint : string) (T : Type)
        (parse : string -> parsing T) (executionId text : string) :
  (forall err result,
      parse text = CallsBack err result ->
      snd (getExecutionResults endpoint T parse executionId) text
      = Returned result)
  /\ (forall e,
         parse text = Throws e ->
         snd (getExecutionResults endpoint T parse executionId) text
         = Raised e).
Proof.
  simpl. unfold mapResponse. split.
  - intros err result ->. reflexivity.
  - intros e ->. reflexivity.
Qed.

(** ** The statements at the example scenarios *)

Ltac evaluate := cbv -[smallPlatform].
Ltac run := evaluate; reflexivity.


Lemma boolean_commit_witness :
  exists inp,
    lookup "done" (_inspectedProperties (insp Example.shown)) = Some inp
    /\ canEditProperty (dia Example.shown) "done"
         (lookup "done" (declaredProperties (insp Example.shown))) (RPart 1)
       = true
    /\ get (records (dia Example.shown) 0) "done" = VBool false
    /\ exists b,
        history (dia (commitProperty 0 (RPart 1) Example.shown "done"))
        = history (dia Example.shown) ++ [SetDataProperty 0 "done" (VBool b)]
        /\ (b = false <-> value inp = "false" \/ value inp = "0").
Proof.
  assert (Hinp : exists inp,
             lookup "done" (_inspectedProperties (insp Example.shown))
             = Some inp) by (eexists; run).
  destruct Hinp as [inp Hinp].
  assert (Hedit : canEditProperty (dia Example.shown) "done"
                    (lookup "done" (declaredProperties (insp Example.shown)))
                    (RPart 1) = true) by run.
  assert (Hold : get (records (dia Example.shown) 0) "done" = VBool false)
    by run.
  assert (Hty : declaredType
                  (lookup "done" (declaredProperties (insp Example.shown)))
                = EmptyString) by run.
  destruct (boolean_commit Example.shown 0 (RPart 1) "done" inp Hinp Hedit
              (or_intror (conj Hty (ex_intro _ false Hold))))
    as [b (Hh & _ & Hb & _)].
  exists inp. split; [exact Hinp|]. split; [exact Hedit|].
  split; [exact Hold|]. exists b. split; [exact Hh|exact Hb].
Defined.

Lemma readOnly_predicate_witness :
  readOnly Example.lockedDesc = Pred Example.always
  /\ (forall inp,
         lookup "locked" (_inspectedProperties (insp Example.shown))
         = Some inp ->
         disabled inp = true)
  /\ forall v,
      ~ In (SetDataProperty 0 "locked" v)
           (newOps Example.shown (updateAllProperties Example.shown)).
Proof.
  assert (H0 : readOnly Example.lockedDesc = Pred Example.always)
    by reflexivity.
  destruct (readOnly_predicate "locked" Example.lockedDesc Example.always H0)
    as [Hbuild Hcommit].
  split; [exact H0|]. split.
  - intros inp Hinp.
    apply (Hbuild Omitted Example.fresh (RPart 1) 0 inp);
      [run|run|run|run|run|exact Hinp].
  - apply (Hcommit Example.shown (RPart 1) 0 ["key"]
                   ["fill"; "name"; "done"]);
      [apply reach_inspect, reach_new|run|run|run|run|run].
Defined.


Lemma commit_without_data_witness :
  inspectedObject (insp Example.fresh) = None
  /\ updateAllProperties Example.fresh = Example.fresh.
Proof.
  split; [run|].
  apply commit_without_data. left. run.
Defined.




Lemma parse_outcome_witness :
  Example.callbackParser "oops"
  = CallsBack (Some "Non-whitespace before first tag.") None
  /\ snd (getExecutionResults "http://repository/" string
            Example.callbackParser "abc123") "oops"
     = Returned None.
Proof.
  split; [run|].
  apply (proj1 (parse_outcome "http://repository/" string
                  Example.callbackParser "abc123" "oops")
               (Some "Non-whitespace before first tag.") None).
  run.
Defined.

(** ** The statements the code does not satisfy *)



(** C8 as stated fails: a text the parser rejects through the callback
    yields undefined, not an error. *)
Lemma parse_failure_counterexample :
  parseFails Example.callbackParser "oops"
  /\ snd (getExecutionResults "http://repository/" string
            Example.callbackParser "abc123") "oops"
     = Returned None
  /\ ~ failuresPropagate "http://repository/" Example.callbackParser.
Proof.
  assert (Hf : parseFails Example.callbackParser "oops").
  { left. eexists. eexists. reflexivity. }
  split; [exact Hf|]. split; [run|].
  intros H. destruct (H "abc123" "oops" Hf) as [e He].
  cbv -[smallPlatform] in He. discriminate He.
Qed.

(** * Further properties *)

(** ** Texts and arrays *)

Lemma split_nonempty (sep : ascii) (s : string) : split sep s <> [].
Proof.
  destruct s as [|c rest]; simpl; [discriminate|].
  destruct (Ascii.eqb c sep); [discriminate|].
  destruct (split sep rest); discriminate.
Qed.

Lemma split_app (sep : ascii) (a b : string) :
  split sep (a ++ String sep b) = split sep a ++ split sep b.
Proof.
  induction a as [|c a IH]; simpl.
  - now rewrite Ascii.eqb_refl.
  - rewrite IH. destruct (Ascii.eqb c sep); [reflexivity|].
    pose proof (split_nonempty sep a) as Hne.
    destruct (split sep a); [contradiction|reflexivity].
Qed.

Lemma split_spaces (n : nat) :
  filter (fun str => negb (String.eqb str EmptyString))
         (split space (spaces n)) = [].
Proof.
  induction n as [|n IH]; simpl; [reflexivity|exact IH].
Qed.

Lemma spaces_not_null (n : nat) : spaces n <> "null".
Proof.
  destruct n; discriminate.
Qed.

Lemma concat_app (sep : string) (l1 l2 : list string) :
  l1 <> [] -> l2 <> [] ->
  String.concat sep (l1 ++ l2)
  = (String.concat sep l1 ++ sep ++ String.concat sep l2)%string.
Proof.
  intros H1 H2. induction l1 as [|s rest IH]; [contradiction|].
  destruct rest as [|s' rest'].
  - simpl. destruct l2; [contradiction|reflexivity].
  - change (String.concat sep ((s :: s' :: rest') ++ l2))
      with (s ++ sep ++ String.concat sep ((s' :: rest') ++ l2))%string.
    rewrite IH by discriminate.
    change (String.concat sep (s :: s' :: rest'))
      with (s ++ sep ++ String.concat sep (s' :: rest'))%string.
    now rewrite !append_assoc.
Qed.

Section TextFacts.
Context {P : Platform}.

Lemma convertToString_array (items : list jsval) :
  convertToString (VArray items)
  = String.concat " " (map convertToString items).
Proof. reflexivity. Qed.

(** X1. A text that holds only spaces, the empty text included, is read
    as the empty array. *)
Theorem blank_text_is_empty_array (n : nat) :
  convertToArrayOfNumber (spaces n) = VArray [].
Proof.
  unfold convertToArrayOfNumber.
  destruct (String.eqb_spec (spaces n) "null") as [E|_].
  - now apply spaces_not_null in E.
  - now rewrite split_spaces.
Qed.

(** X2. Reading two texts put together with a space between them gives
    the numbers of the first followed by the numbers of the second. *)
Theorem array_of_joined_texts (a b : string) (xs ys : list jsval) :
  convertToArrayOfNumber a = VArray xs ->
  convertToArrayOfNumber b = VArray ys ->
  convertToArrayOfNumber (a ++ " " ++ b) = VArray (xs ++ ys).
Proof.
  unfold convertToArrayOfNumber.
  destruct (String.eqb a "null"); [discriminate|].
  destruct (String.eqb b "null"); [discriminate|].
  intros [= <-] [= <-].
  destruct (String.eqb_spec (a ++ " " ++ b) "null") as [E|_].
  - exfalso.
    assert (Hc : contains space (a ++ " " ++ b) = true)
      by apply contains_app_sep.
    rewrite E in Hc. discriminate.
  - change (a ++ " " ++ b)%string with (a ++ String space b)%string.
    now rewrite split_app, filter_app, map_app.
Qed.

(** X3. An array of non-empty arrays prints like the one array of all
    their elements: the nesting does not show in the text. *)
Theorem nested_arrays_print_flat (rows : list (list jsval)) :
  Forall (fun row => row <> []) rows ->
  convertToString (VArray (map VArray rows))
  = convertToString (VArray (List.concat rows)).
Proof.
  induction 1 as [|row rest Hrow Hrest IH]; [reflexivity|].
  destruct rest as [|row' rest'].
  - simpl. now rewrite app_nil_r.
  - rewrite convertToString_array in *.
    change (map convertToString (map VArray (row :: row' :: rest')))
      with (convertToString (VArray row)
              :: map convertToString (map VArray (row' :: rest'))).
    change (String.concat " "
              (convertToString (VArray row)
                 :: map convertToString (map VArray (row' :: rest'))))
      with (convertToString (VArray row) ++ " "
              ++ String.concat " "
                   (map convertToString (map VArray (row' :: rest'))))%string.
    rewrite IH.
    change (List.concat (row :: row' :: rest'))
      with (row ++ List.concat (row' :: rest')).
    rewrite !convertToString_array, map_app, concat_app.
    + reflexivity.
    + now destruct row.
    + inversion Hrest as [|? ? Hrow' _]; subst.
      simpl. destruct row'; [contradiction|discriminate].
Qed.
End TextFacts.

(** ** The rebuilt table in closed form *)

Section TableForm.
Context {P : Platform} {B : Browser}.
Variables (d : Diagram) (o : objref) (data : list (string * jsval)).

Lemma buildInput_ext i i' k v :
  declaredProperties i' = declaredProperties i ->
  inspectedObject i' = inspectedObject i ->
  tabIndex i' = tabIndex i ->
  buildInput d i' k v = buildInput d i k v.
Proof.
  intros Hd Ho Ht. unfold buildInput. now rewrite Hd, Ho, Ht.
Qed.

Lemma assoc_set_fresh {A : Type} (k : string) (v : A)
      (l : list (string * A)) :
  ~ In k (keys l) -> assoc_set k v l = l ++ [(k, v)].
Proof.
  induction l as [|[k' v'] rest IH]; simpl; [reflexivity|].
  intros H. destruct (String.eqb_spec k k') as [->|_]; [tauto|].
  f_equal. apply IH. tauto.
Qed.

Lemma keys_inputsFrom i n names :
  keys (inputsFrom d i data n names) = names.
Proof.
  revert n. induction names as [|k rest IH]; intros n; simpl;
    [reflexivity|]. now rewrite IH.
Qed.

Lemma inputsFrom_app i n a b :
  inputsFrom d i data n (a ++ b)
  = inputsFrom d i data n a ++ inputsFrom d i data (n + length a) b.
Proof.
  revert n. induction a as [|k rest IH]; intros n; simpl.
  - now rewrite Nat.add_0_r.
  - rewrite IH. now rewrite Nat.add_succ_r.
Qed.

Lemma inputsFrom_ext i i' n names :
  declaredProperties i' = declaredProperties i ->
  inspectedObject i' = inspectedObject i ->
  inputsFrom d i' data n names = inputsFrom d i data n names.
Proof.
  intros Hd Ho. revert n. induction names as [|k rest IH]; intros n; simpl;
    [reflexivity|].
  rewrite IH, Hd. do 2 f_equal. now apply buildInput_ext.
Qed.

Lemma lookup_inputsFrom i n names k inp :
  lookup k (inputsFrom d i data n names) = Some inp ->
  exists m,
    inp = buildInput d (set_tabIndex m i) k
            (rowValue (declaredProperties i) data k).
Proof.
  revert n. induction names as [|k' rest IH]; intros n; simpl;
    [discriminate|].
  destruct (String.eqb_spec k k') as [->|_].
  - intros [= <-]. eauto.
  - apply IH.
Qed.

Lemma nth_inputsFrom i n names m k inp :
  nth_error (inputsFrom d i data n names) m = Some (k, inp) ->
  nth_error names m = Some k
  /\ inp = buildInput d (set_tabIndex (n + m) i) k
             (rowValue (declaredProperties i) data k).
Proof.
  revert n m. induction names as [|k' rest IH]; intros n m; simpl.
  - destruct m; discriminate.
  - destruct m as [|m]; simpl.
    + intros [= <- <-]. now rewrite Nat.add_0_r.
    + intros H. apply IH in H. now rewrite Nat.add_succ_r.
Qed.

Lemma appended_tableAt i names k :
  ~ In k names ->
  appended d (tableAt d data i names) k
           (rowValue (declaredProperties i) data k)
  = tableAt d data i (names ++ [k]).
Proof.
  intros Hfresh. unfold appended, tableAt, buildPropertyRow. simpl.
  f_equal. rewrite assoc_set_fresh by now rewrite keys_inputsFrom.
  rewrite inputsFrom_app, length_app, Nat.add_comm. simpl.
  rewrite (buildInput_ext (set_tabIndex (length names) i)
             (mkInspector (_div i) (inputsFrom d i data 0 names)
                          (inspectedObject i) (includesOwnProperties i)
                          (declaredProperties i) (inspectsSelection i)
                          (propertyModified i) (length names)))
    by reflexivity.
  now rewrite Nat.add_0_r, Nat.add_1_r.
Qed.

Lemma showDeclared_value acc k :
  shownDeclared d o (declaredProperties (fst acc)) k = true ->
  showDeclared d o data acc k
  = appended d acc k (rowValue (declaredProperties (fst acc)) data k).
Proof.
  destruct acc as [i tbody].
  unfold showDeclared, shownDeclared, rowValue, appended. simpl.
  destruct (lookup k (declaredProperties i)) as [val|]; [|discriminate].
  intros ->. reflexivity.
Qed.

Lemma declared_loop_form i l names :
  NoDup l ->
  (forall k, In k l -> ~ In k names) ->
  fold_left (showDeclared d o data) l (tableAt d data i names)
  = tableAt d data i
      (names ++ filter (shownDeclared d o (declaredProperties i)) l).
Proof.
  revert names. induction l as [|k rest IH]; intros names Hnd Hfresh.
  - simpl. now rewrite app_nil_r.
  - inversion Hnd as [|? ? Hk Hrest]; subst. cbn [fold_left filter].
    destruct (shownDeclared d o (declaredProperties i) k) eqn:Hs.
    + rewrite showDeclared_value by exact Hs.
      cbn [fst tableAt declaredProperties].
      rewrite appended_tableAt by (apply Hfresh; now left).
      rewrite IH; auto.
      * now rewrite <- app_assoc.
      * intros k' Hk' Hin. apply in_app_iff in Hin as [Hin|[<-|[]]].
        -- apply (Hfresh k'); [now right|assumption].
        -- contradiction.
    + destruct (showDeclared_shape d o data (tableAt d data i names) k)
        as [[Hs' _]|[_ ->]].
      * simpl in Hs'. congruence.
      * apply IH; auto. intros k' Hk'. apply Hfresh. now right.
Qed.

Lemma hasKey_false_lookup {A : Type} (k : string) (l : list (string * A)) :
  hasKey k l = false <-> lookup k l = None.
Proof.
  unfold hasKey. destruct (lookup k l); split; congruence.
Qed.

Lemma own_loop_form i l names :
  NoDup l ->
  (forall k, In k names ->
             hasKey k (declaredProperties i) = true \/ ~ In k l) ->
  (forall k, shownDeclared d o (declaredProperties i) k = true ->
             In k names) ->
  fold_left (showOwn d o data) l (tableAt d data i names)
  = tableAt d data i
      (names
       ++ filter (fun k => negb (String.eqb k "__gohashid")
                           && negb (hasKey k (declaredProperties i)))
                 l).
Proof.
  revert names. induction l as [|k rest IH]; intros names Hnd Hown Hshown.
  - simpl. now rewrite app_nil_r.
  - inversion Hnd as [|? ? Hk Hrest]; subst. cbn [fold_left filter].
    destruct (showOwn_shape d o data (tableAt d data i names) k)
      as [(Hg & Hnew & Hhid & ->)|[Hskip ->]];
      cbn [fst tableAt declaredProperties _inspectedProperties] in *.
    + (* a row is appended: the key is not declared *)
      assert (Hundecl : hasKey k (declaredProperties i) = false).
      { destruct (hasKey k (declaredProperties i)) eqn:E; [|reflexivity].
        exfalso. unfold hasKey in E. unfold hiddenDeclared in Hhid.
        destruct (lookup k (declaredProperties i)) as [desc|] eqn:El;
          [|discriminate].
        apply negb_false_iff in Hhid.
        assert (Hin : In k names).
        { apply Hshown. unfold shownDeclared. now rewrite El. }
        assert (Hk' : hasKey k (inputsFrom d i data 0 names) = true).
        { apply hasKey_In. now rewrite keys_inputsFrom. }
        congruence. }
      destruct (String.eqb_spec k "__gohashid"); [contradiction|].
      rewrite Hundecl. simpl.
      assert (Hval : get data k = rowValue (declaredProperties i) data k).
      { unfold rowValue. apply hasKey_false_lookup in Hundecl.
        now rewrite Hundecl. }
      rewrite Hval, appended_tableAt.
      * rewrite IH; auto.
        -- now rewrite <- app_assoc.
        -- intros k' Hin. apply in_app_iff in Hin as [Hin|[<-|[]]].
           ++ destruct (Hown k' Hin) as [H|H]; [now left|right].
              intros Hr. apply H. now right.
           ++ now right.
        -- intros k' Hs. apply in_app_iff. left. now apply Hshown.
      * intros Hin.
        assert (Hk' : hasKey k (inputsFrom d i data 0 names) = true).
        { apply hasKey_In. now rewrite keys_inputsFrom. }
        congruence.
    + (* the key is skipped *)
      assert (Hno : negb (String.eqb k "__gohashid")
                    && negb (hasKey k (declaredProperties i)) = false).
      { destruct Hskip as [->|[Hhas|Hhid]].
        - reflexivity.
        - apply hasKey_In in Hhas. rewrite keys_inputsFrom in Hhas.
          destruct (Hown k Hhas) as [->|Hout].
          + apply andb_false_r.
          + exfalso. apply Hout. now left.
        - unfold hiddenDeclared in Hhid. unfold hasKey.
          destruct (lookup k (declaredProperties i)); [|discriminate].
          apply andb_false_r. }
      rewrite Hno. apply IH; auto.
      intros k' Hin. destruct (Hown k' Hin) as [H|H]; [now left|right].
      intros Hr. apply H. now right.
Qed.

Lemma buildTable_form i :
  NoDup (keys (declaredProperties i)) ->
  NoDup (keys data) ->
  let names :=
    rowNames d o (declaredProperties i) (includesOwnProperties i) data in
  buildTable d o data i
  = mkInspector names (inputsFrom d i data 0 names) (inspectedObject i)
                (includesOwnProperties i) (declaredProperties i)
                (inspectsSelection i) (propertyModified i) (length names).
Proof.
  intros Hdecl Hdata names. unfold buildTable. cbv zeta.
  change (set_tabIndex 0 (set_inspectedProperties [] i), @nil string)
    with (tableAt d data i []).
  change (declaredProperties (set_tabIndex 0 (set_inspectedProperties [] i)))
    with (declaredProperties i).
  rewrite declared_loop_form by (auto; intros k _ []).
  simpl app at 1. cbn [fst tableAt includesOwnProperties].
  unfold names, rowNames.
  destruct (includesOwnProperties i) eqn:Hinc.
  - rewrite own_loop_form;
      [unfold tableAt, set_div; simpl; now rewrite Hinc|assumption| |].
    + intros k Hin. left. apply filter_In in Hin as [_ Hs].
      unfold shownDeclared in Hs. unfold hasKey.
      now destruct (lookup k (declaredProperties i)).
    + intros k Hs. apply filter_In. split; [|assumption].
      unfold shownDeclared in Hs.
      destruct (lookup k (declaredProperties i)) eqn:E; [|discriminate].
      eapply lookup_Some_In; eauto.
  - rewrite app_nil_r. unfold tableAt, set_div. simpl. now rewrite Hinc.
Qed.
End TableForm.

Section TableProperties.
Context {P : Platform} {B : Browser}.

Lemma in_tabIndex_buildInput d i k v :
  in_tabIndex (buildInput d i k v) = tabIndex i.
Proof.
  unfold buildInput.
  destruct (lookup k (declaredProperties i));
    repeat match goal with
           | |- context [if ?c then _ else _] => destruct c
           end; reflexivity.
Qed.

(** The input of a row whose property is not declared. *)
Lemma buildInput_undeclared d i k v :
  lookup k (declaredProperties i) = None ->
  in_type (buildInput d i k v) = "text"
  /\ value (buildInput d i k v) = assigned "text" (VStr (convertToString v)).
Proof.
  intros Hk. unfold buildInput. rewrite Hk.
  destruct (isReadOnly d); split; reflexivity.
Qed.

(** The input of a row whose declared type keeps it a text input. *)
Lemma buildInput_text d i k v desc t :
  lookup k (declaredProperties i) = Some desc ->
  type desc = Some t ->
  mem t textTypes = true ->
  in_type (buildInput d i k v) = "text"
  /\ value (buildInput d i k v) = assigned "text" (VStr (convertToString v)).
Proof.
  intros Hk Ht Hmem. unfold buildInput. rewrite Hk, Ht, Hmem.
  assert (Hc : isColor (Some t) = false).
  { unfold isColor. destruct (String.eqb_spec t "color") as [E|]; auto.
    subst t. discriminate Hmem. }
  rewrite Hc. cbn [andb].
  destruct (isReadOnly d); split; reflexivity.
Qed.

Lemma rebuilt_form object st o r :
  resolve object st = Some o ->
  sameObject (inspectedObject (insp st)) (Some o) = false ->
  dataOf (dia st) (Some o) = Some r ->
  NoDup (keys (declaredProperties (insp st))) ->
  NoDup (keys (records (dia st) r)) ->
  let names :=
    rowNames (dia st) o (declaredProperties (insp st))
             (includesOwnProperties (insp st)) (records (dia st) r) in
  insp (inspectObject object st)
  = mkInspector names
      (inputsFrom (dia st) (set_inspectedObject (Some o) (insp st))
                  (records (dia st) r) 0 names)
      (Some o) (includesOwnProperties (insp st))
      (declaredProperties (insp st)) (inspectsSelection (insp st))
      (propertyModified (insp st)) (length names).
Proof.
  intros Hres Hdiff Hdata Hdecl Hkeys names.
  rewrite (inspect_rebuild object st o r Hres Hdiff Hdata). cbn [insp].
  rewrite buildTable_form by assumption.
  cbn [declaredProperties includesOwnProperties inspectedObject
       inspectsSelection propertyModified set_div set_inspectedObject].
  fold names.
  now rewrite (inputsFrom_ext (dia st) (records (dia st) r)
                 (set_inspectedObject (Some o) (insp st))
                 (set_div [] (set_inspectedObject (Some o) (insp st)))).
Qed.


Lemma rebuilt_input object st o r k inp :
  resolve object st = Some o ->
  sameObject (inspectedObject (insp st)) (Some o) = false ->
  dataOf (dia st) (Some o) = Some r ->
  NoDup (keys (declaredProperties (insp st))) ->
  NoDup (keys (records (dia st) r)) ->
  lookup k (_inspectedProperties (insp (inspectObject object st))) = Some inp ->
  exists m,
    inp = buildInput (dia st)
            (set_tabIndex m (set_inspectedObject (Some o) (insp st)))
            k (rowValue (declaredProperties (insp st))
                        (records (dia st) r) k).
Proof.
  intros Hres Hdiff Hdata Hdecl Hkeys.
  rewrite (rebuilt_form object st o r Hres Hdiff Hdata Hdecl Hkeys).
  cbn [_inspectedProperties]. intros H.
  apply lookup_inputsFrom in H as [m ->]. exists m. reflexivity.
Qed.

Lemma rebuilt_fieldsOf object st o r :
  resolve object st = Some o ->
  sameObject (inspectedObject (insp st)) (Some o) = false ->
  dataOf (dia st) (Some o) = Some r ->
  let st' := inspectObject object st in
  dia st' = dia st
  /\ inspectedObject (insp st') = Some o
  /\ fieldsOf (dia st') (inspectedObject (insp st'))
     = Some (records (dia st) r).
Proof.
  intros Hres Hdiff Hdata. cbv zeta.
  rewrite (inspect_rebuild object st o r Hres Hdiff Hdata). cbn [insp dia].
  destruct (buildTable_spec (dia st) o (records (dia st) r)
              (set_div [] (set_inspectedObject (Some o) (insp st)))
              (fun _ _ => True)) as (_ & Hobj & _); [intros; exact I|].
  split; [reflexivity|]. split; [exact Hobj|].
  rewrite Hobj. unfold fieldsOf. cbn [inspectedObject set_div
    set_inspectedObject]. now rewrite Hdata.
Qed.

Lemma updateAllHTML_lookup st k :
  lookup k (_inspectedProperties (insp (updateAllHTML st)))
  = option_map (refreshed (fieldsOf (dia st) (inspectedObject (insp st))) k)
               (lookup k (_inspectedProperties (insp st))).
Proof.
  apply updateAllHTML_inputs.
Qed.

(** X5. Right after a rebuild, refreshing the values leaves the input of
    every property that is not declared exactly as it was built. *)
Theorem refresh_keeps_undeclared_rows (object : argument) (st : State)
        (o : objref) (r : nat) (k : string) (inp : input) :
  resolve object st = Some o ->
  sameObject (inspectedObject (insp st)) (Some o) = false ->
  dataOf (dia st) (Some o) = Some r ->
  NoDup (keys (declaredProperties (insp st))) ->
  NoDup (keys (records (dia st) r)) ->
  lookup k (declaredProperties (insp st)) = None ->
  lookup k (_inspectedProperties (insp (inspectObject object st))) = Some inp ->
  lookup k (_inspectedProperties
              (insp (updateAllHTML (inspectObject object st))))
  = Some inp.
Proof.
  intros Hres Hdiff Hdata Hdecl Hkeys Hund Hinp.
  destruct (rebuilt_fieldsOf object st o r Hres Hdiff Hdata)
    as (_ & _ & Hfields).
  rewrite updateAllHTML_lookup, Hfields, Hinp. cbn [option_map]. f_equal.
  destruct (rebuilt_input object st o r k inp Hres Hdiff Hdata Hdecl Hkeys
              Hinp) as [m ->].
  unfold rowValue. rewrite Hund.
  unfold refreshed, buildInput. cbn [declaredProperties set_tabIndex
    set_inspectedObject]. rewrite Hund.
  destruct (isReadOnly (dia st)); reflexivity.
Qed.

(** X6. A declared property of a text-input type that passes the
    visibility check and is missing from the data record is shown, after a
    rebuild, with its default value (the empty text when the default is
    absent or falsy); once the values are refreshed the same row shows the
    text undefined. *)
Theorem default_shown_until_refresh (object : argument) (st : State)
        (o : objref) (r : nat) (k : string) (desc : propertyDesc)
        (t : string) :
  resolve object st = Some o ->
  sameObject (inspectedObject (insp st)) (Some o) = false ->
  dataOf (dia st) (Some o) = Some r ->
  NoDup (keys (declaredProperties (insp st))) ->
  NoDup (keys (records (dia st) r)) ->
  lookup k (declaredProperties (insp st)) = Some desc ->
  type desc = Some t ->
  mem t textTypes = true ->
  canShowProperty (dia st) k desc o = true ->
  get (records (dia st) r) k = VUndefined ->
  let st' := inspectObject object st in
  let shown :=
    if truthy (defaultValue desc) then defaultValue desc
    else VStr EmptyString in
  exists inp,
    lookup k (_inspectedProperties (insp st')) = Some inp
    /\ value inp = assigned "text" (VStr (convertToString shown))
    /\ exists inp',
        lookup k (_inspectedProperties (insp (updateAllHTML st')))
        = Some inp'
        /\ value inp' = assigned "text" (VStr "undefined").
Proof.
  intros Hres Hdiff Hdata Hdecl Hkeys Hdesc Hty Hmem Hshow Hmiss. cbv zeta.
  assert (Hkey : exists inp,
             lookup k (_inspectedProperties (insp (inspectObject object st)))
             = Some inp).
  { apply In_keys_lookup.
    rewrite (rebuilt_form object st o r Hres Hdiff Hdata Hdecl Hkeys).
    cbn [_inspectedProperties]. rewrite keys_inputsFrom.
    unfold rowNames. apply in_app_iff. left. apply filter_In. split.
    - eapply lookup_Some_In; eauto.
    - unfold shownDeclared. now rewrite Hdesc. }
  destruct Hkey as [inp Hinp]. exists inp. split; [exact Hinp|].
  destruct (rebuilt_input object st o r k inp Hres Hdiff Hdata Hdecl Hkeys
              Hinp) as [m E].
  assert (Hval : rowValue (declaredProperties (insp st))
                          (records (dia st) r) k
                 = if truthy (defaultValue desc) then defaultValue desc
                   else VStr EmptyString).
  { unfold rowValue. rewrite Hdesc, Hmiss. cbn [is_undefined negb].
    destruct (defaultValue desc); reflexivity. }
  destruct (buildInput_text (dia st)
              (set_tabIndex m (set_inspectedObject (Some o) (insp st)))
              k (rowValue (declaredProperties (insp st))
                          (records (dia st) r) k) desc t Hdesc Hty Hmem)
    as [Htext Hvalue].
  rewrite <- E in Htext, Hvalue.
  split; [now rewrite Hvalue, Hval|].
  destruct (rebuilt_fieldsOf object st o r Hres Hdiff Hdata)
    as (_ & _ & Hfields).
  eexists. split.
  - rewrite updateAllHTML_lookup, Hfields, Hinp. reflexivity.
  - unfold refreshed. rewrite Htext, Hmiss. reflexivity.
Qed.
End TableProperties.

(** ** What a commit writes, shows and leaves alone *)

Section CommitProperties.
Context {P : Platform} {B : Browser}.

Lemma commitProperty_written_input r o s k inp :
  lookup k (_inspectedProperties (insp s)) = Some inp ->
  lookup k (_inspectedProperties (insp (commitProperty r o s k)))
  = Some
      (if canEditProperty (dia s) k
            (lookup k (declaredProperties (insp s))) o
       then set_value
              (assigned (in_type inp)
                 (convertValue
                    (effectiveType (lookup k (declaredProperties (insp s)))
                                   (get (records (dia s) r) k))
                    (value inp)))
              inp
       else inp).
Proof.
  intros Hinp. unfold commitProperty. rewrite Hinp.
  destruct (canEditProperty _ _ _ _); simpl; [|exact Hinp].
  now rewrite lookup_assoc_set_same.
Qed.

(** The input of row [k] after a commit is the one its own turn left. *)
Lemma commit_row_input st o r pre k post :
  NoDup (keys (_inspectedProperties (insp st))) ->
  inspectedObject (insp st) = Some o ->
  dataOf (dia st) (Some o) = Some r ->
  keys (_inspectedProperties (insp st)) = pre ++ k :: post ->
  lookup k (_inspectedProperties (insp (updateAllProperties st)))
  = lookup k
      (_inspectedProperties
         (insp (commitProperty r o
                  (fold_left (commitProperty r o) pre
                     (withDiagram (startTransaction "set all properties")
                                  st))
                  k))).
Proof.
  intros Hnd Ho Hr Hkeys.
  rewrite (updateAllProperties_shape st o r Ho Hr), Hkeys.
  rewrite Hkeys in Hnd. apply split_NoDup in Hnd as [_ Hpost].
  rewrite fold_left_app. simpl.
  now rewrite loop_other_input.
Qed.



(** A row that stays editable whatever the earlier rows wrote is written
    with its converted value, and its field holds that value afterwards. *)
Lemma commit_writes st o r k inp :
  NoDup (keys (_inspectedProperties (insp st))) ->
  inspectedObject (insp st) = Some o ->
  dataOf (dia st) (Some o) = Some r ->
  lookup k (_inspectedProperties (insp st)) = Some inp ->
  (forall d',
      parts d' = parts (dia st) ->
      get (records d' r) k = get (records (dia st) r) k ->
      canEditProperty d' k (lookup k (declaredProperties (insp st))) o
      = true) ->
  let v :=
    convertValue
      (effectiveType (lookup k (declaredProperties (insp st)))
                     (get (records (dia st) r) k))
      (value inp) in
  In (SetDataProperty r k v) (newOps st (updateAllProperties st))
  /\ get (records (dia (updateAllProperties st)) r) k = v.
Proof.
  intros Hnd Ho Hr Hinp Hedit. cbv zeta.
  assert (Hk : In k (keys (_inspectedProperties (insp st))))
    by (eapply lookup_Some_In; eauto).
  apply in_split in Hk as (pre & post & Hkeys).
  destruct (commit_row st o r pre k post Hnd Ho Hr Hkeys)
    as (Hw & Hlook & Hfield & Hdecl & Hfinal).
  set (start := withDiagram (startTransaction "set all properties") st) in *.
  set (turn := fold_left (commitProperty r o) pre start) in *.
  assert (Hturn : canEditProperty (dia turn) k
                    (lookup k (declaredProperties (insp st))) o = true).
  { apply Hedit; [|exact Hfield].
    destruct (loop_diagram r o pre start) as (_ & _ & Hparts).
    exact Hparts. }
  split.
  - assert (Hin : In (k,
                      convertValue
                        (effectiveType
                           (lookup k (declaredProperties (insp st)))
                           (get (records (dia st) r) k))
                        (value inp))
                     (writesOf r o (keys (_inspectedProperties (insp st)))
                               start)).
    { eapply proj1. apply filter_In. rewrite Hw, writesOf_single.
      rewrite Hlook, Hinp, Hdecl, Hturn, Hfield.
      rewrite filter_named_single. now left. }
    unfold newOps. rewrite (updateAllProperties_shape st o r Ho Hr).
    cbn [withDiagram dia commitTransaction history].
    rewrite loop_history. cbn [start withDiagram dia startTransaction history].
    rewrite <- !app_assoc, skipn_length_app.
    apply in_app_iff. right. apply in_app_iff. left.
    apply in_map_iff. eexists. split; [|exact Hin]. reflexivity.
  - rewrite Hfinal.
    rewrite (commitProperty_written r o turn k inp);
      [now rewrite Hdecl, Hfield|now rewrite Hlook|now rewrite Hdecl].
Qed.

Lemma canEdit_undeclared d k o r :
  dataOf d (Some o) = Some r ->
  (forall src, get (records d r) k <> VFunction src) ->
  canEditProperty d k None o = true.
Proof.
  intros Hr Hf. unfold canEditProperty. rewrite Hr.
  destruct (get (records d r) k) eqn:E; try reflexivity.
  now contradiction (Hf src).
Qed.

Lemma canEdit_unset d k desc o r :
  dataOf d (Some o) = Some r ->
  (forall src, get (records d r) k <> VFunction src) ->
  readOnly desc = Unset ->
  canEditProperty d k (Some desc) o = true.
Proof.
  intros Hr Hf Hro. unfold canEditProperty. rewrite Hr, Hro.
  destruct (get (records d r) k) eqn:E; try reflexivity.
  now contradiction (Hf src).
Qed.

Lemma dataOf_parts d d' o :
  parts d' = parts d -> dataOf d' (Some o) = dataOf d (Some o).
Proof.
  intros Hp. unfold dataOf. destruct o; [|reflexivity]. now rewrite Hp.
Qed.

(** X9. In a reachable state, the row of a property that is not declared
    and whose stored value is neither a boolean, a number, a geometry
    object nor a function is written back by a commit as the text of its
    input: an array, null or any other object stored there becomes a
    string. *)
Theorem untyped_value_becomes_text (st : State) (o : objref) (r : nat)
        (k : string) (inp : input) :
  reachable st ->
  inspectedObject (insp st) = Some o ->
  dataOf (dia st) (Some o) = Some r ->
  lookup k (_inspectedProperties (insp st)) = Some inp ->
  lookup k (declaredProperties (insp st)) = None ->
  inferType (get (records (dia st) r) k) = EmptyString ->
  (forall src, get (records (dia st) r) k <> VFunction src) ->
  let st' := updateAllProperties st in
  In (SetDataProperty r k (VStr (value inp))) (newOps st st')
  /\ get (records (dia st') r) k = VStr (value inp).
Proof.
  intros Hreach Ho Hr Hinp Hund Hinfer Hfun. cbv zeta.
  destruct (reachable_rows st Hreach) as [Hnd _].
  destruct (commit_writes st o r k inp Hnd Ho Hr Hinp) as [Hin Hget].
  - intros d' Hparts Hfield. rewrite Hund.
    apply (canEdit_undeclared d' k o r).
    + now rewrite (dataOf_parts (dia st)).
    + intros src. rewrite Hfield. apply Hfun.
  - rewrite Hund in Hin, Hget. unfold effectiveType in Hin, Hget.
    cbn [declaredType String.eqb] in Hin, Hget.
    rewrite Hinfer in Hin, Hget. split; assumption.
Qed.

Lemma textTypes_effective desc t old :
  type desc = Some t ->
  mem t textTypes = true ->
  effectiveType (Some desc) old = t.
Proof.
  intros Ht Hmem. unfold effectiveType, declaredType. rewrite Ht.
  destruct (String.eqb_spec t EmptyString) as [E|_]; [|reflexivity].
  subst t. discriminate Hmem.
Qed.

Lemma falsy_not_function (v : jsval) :
  truthy v = false -> forall src, v <> VFunction src.
Proof.
  intros Hf src E. subst v. discriminate Hf.
Qed.

(** X10. A declared property of a text-input type, without a readOnly
    entry, whose stored value is falsy but not undefined (false, zero, the
    empty text, null) is shown as the empty text after a rebuild whatever
    its default; where the browser keeps the empty text as it is, the next
    commit writes the empty text converted by the declared type, so a
    stored false of declared type boolean is written back as true. *)
Theorem falsy_value_shown_empty (object : argument) (st : State)
        (o : objref) (r : nat) (k : string) (desc : propertyDesc)
        (t : string) :
  resolve object st = Some o ->
  sameObject (inspectedObject (insp st)) (Some o) = false ->
  dataOf (dia st) (Some o) = Some r ->
  NoDup (keys (declaredProperties (insp st))) ->
  NoDup (keys (records (dia st) r)) ->
  lookup k (declaredProperties (insp st)) = Some desc ->
  type desc = Some t ->
  mem t textTypes = true ->
  readOnly desc = Unset ->
  canShowProperty (dia st) k desc o = true ->
  is_undefined (get (records (dia st) r) k) = false ->
  truthy (get (records (dia st) r) k) = false ->
  assigned "text" (VStr EmptyString) = EmptyString ->
  let st' := inspectObject object st in
  (exists inp,
      lookup k (_inspectedProperties (insp st')) = Some inp
      /\ value inp = EmptyString)
  /\ In (SetDataProperty r k (convertValue t EmptyString))
        (newOps st' (updateAllProperties st'))
  /\ get (records (dia (updateAllProperties st')) r) k
     = convertValue t EmptyString
  /\ (t = "boolean" -> convertValue t EmptyString = VBool true).
Proof.
  intros Hres Hdiff Hdata Hdecl Hkeys Hdesc Hty Hmem Hro Hshow Hdef Hfalsy
         Hkeep.
  cbv zeta.
  destruct (rebuilt_fieldsOf object st o r Hres Hdiff Hdata)
    as (Hdia & Hobj & _).
  pose proof (rebuilt_form object st o r Hres Hdiff Hdata Hdecl Hkeys)
    as Hform. cbv zeta in Hform.
  assert (Hkey : exists inp,
             lookup k (_inspectedProperties (insp (inspectObject object st)))
             = Some inp).
  { apply In_keys_lookup. rewrite Hform.
    cbn [_inspectedProperties]. rewrite keys_inputsFrom.
    unfold rowNames. apply in_app_iff. left. apply filter_In. split.
    - eapply lookup_Some_In; eauto.
    - unfold shownDeclared. now rewrite Hdesc. }
  destruct Hkey as [inp Hinp].
  destruct (rebuilt_input object st o r k inp Hres Hdiff Hdata Hdecl Hkeys
              Hinp) as [m E].
  assert (Hval : rowValue (declaredProperties (insp st))
                          (records (dia st) r) k = VStr EmptyString).
  { unfold rowValue. rewrite Hdesc, Hdef. cbn [negb]. now rewrite Hfalsy. }
  destruct (buildInput_text (dia st)
              (set_tabIndex m (set_inspectedObject (Some o) (insp st)))
              k (rowValue (declaredProperties (insp st))
                          (records (dia st) r) k) desc t Hdesc Hty Hmem)
    as [_ Hvalue].
  rewrite <- E, Hval in Hvalue. cbn [convertToString] in Hvalue.
  rewrite Hkeep in Hvalue.
  assert (Hdecl' : declaredProperties (insp (inspectObject object st))
                   = declaredProperties (insp st)) by now rewrite Hform.
  assert (Hnd : NoDup (keys (_inspectedProperties
                               (insp (inspectObject object st))))).
  { rewrite (inspect_rebuild object st o r Hres Hdiff Hdata). cbn [insp].
    destruct (buildTable_spec (dia st) o (records (dia st) r)
                (set_div [] (set_inspectedObject (Some o) (insp st)))
                (fun _ _ => True)) as (_ & _ & _ & H & _);
      [intros; exact I|exact H]. }
  assert (Hr' : dataOf (dia (inspectObject object st)) (Some o) = Some r)
    by now rewrite Hdia.
  destruct (commit_writes (inspectObject object st) o r k inp Hnd Hobj Hr'
              Hinp) as [Hin Hget].
  { intros d' Hparts Hfield. rewrite Hdecl', Hdesc.
    apply (canEdit_unset d' k desc o r).
    - now rewrite (dataOf_parts (dia (inspectObject object st))).
    - intros src. rewrite Hfield, Hdia. now apply falsy_not_function.
    - exact Hro. }
  rewrite Hdecl', Hdesc, Hvalue in Hin, Hget.
  rewrite (textTypes_effective desc t _ Hty Hmem) in Hin, Hget.
  split; [exists inp; split; assumption|].
  split; [exact Hin|]. split; [exact Hget|].
  intros ->. reflexivity.
Qed.
End CommitProperties.

(** ** Refreshing, inspecting again, and events *)

Section RefreshProperties.
Context {P : Platform} {B : Browser}.

Lemma refreshed_twice data (k : string) (inp : input) :
  refreshed data k (refreshed data k inp) = refreshed data k inp.
Proof.
  unfold refreshed.
  destruct data; destruct (String.eqb (in_type inp) "color") eqn:E;
    simpl; rewrite E; reflexivity.
Qed.

Lemma state_eta (st : State) : mkState (insp st) (dia st) (modified st) = st.
Proof. now destruct st. Qed.

Lemma set_inspectedObject_same (i : Inspector) (x : option objref) :
  inspectedObject i = x -> set_inspectedObject x i = i.
Proof.
  intros <-. now destruct i.
Qed.

(** X11. Refreshing the values is idempotent, and it changes neither the
    diagram, nor the calls made to the callback, nor the rows, nor the
    names of the inputs. *)
Theorem refresh_idempotent (st : State) :
  updateAllHTML (updateAllHTML st) = updateAllHTML st
  /\ dia (updateAllHTML st) = dia st
  /\ modified (updateAllHTML st) = modified st
  /\ _div (insp (updateAllHTML st)) = _div (insp st)
  /\ keys (_inspectedProperties (insp (updateAllHTML st)))
     = keys (_inspectedProperties (insp st)).
Proof.
  split; [|split; [reflexivity|split; [reflexivity|split; [reflexivity|]]]].
  - unfold updateAllHTML. cbn [insp dia modified inspectedObject
      set_inspectedProperties _inspectedProperties].
    f_equal. unfold set_inspectedProperties. cbn. f_equal.
    rewrite map_map. apply map_ext. intros [k inp]. cbn [fst snd].
    now rewrite refreshed_twice.
  - unfold updateAllHTML. cbn. apply keys_map_values.
Qed.

Lemma inspectObject_facts object st :
  let st' := inspectObject object st in
  dia st' = dia st
  /\ inspectedObject (insp st') = resolve object st
  /\ inspectsSelection (insp st') = inspectsSelection (insp st).
Proof.
  cbv zeta. unfold inspectObject.
  destruct (resolve object st) as [o|]; [|repeat split].
  destruct (sameObject _ _); [repeat split|].
  destruct (dataOf _ _) as [r|]; [|repeat split].
  cbn [insp dia].
  destruct (buildTable_spec (dia st) o (records (dia st) r)
              (set_div [] (set_inspectedObject (Some o) (insp st)))
              (fun _ _ => True)) as ((_ & _ & Hsel & _) & Hobj & _);
    [intros; exact I|].
  repeat split; assumption.
Qed.

Lemma resolve_stable object st :
  resolve object (inspectObject object st) = resolve object st.
Proof.
  destruct (inspectObject_facts object st) as (Hdia & Hobj & Hsel).
  destruct object; try reflexivity.
  unfold resolve at 1. rewrite Hsel, Hdia.
  destruct (inspectsSelection (insp st)) eqn:E.
  - unfold resolve. now rewrite E.
  - exact Hobj.
Qed.

(** X12. Once [inspectObject] has been called, calling it again with the
    same argument only refreshes the values, and a further call changes
    nothing. *)
Theorem inspect_again (object : argument) (st : State) :
  let st1 := inspectObject object st in
  let st2 := inspectObject object st1 in
  st2 = updateAllHTML st1
  /\ inspectObject object st2 = st2.
Proof.
  cbv zeta.
  assert (Hagain : forall s,
             inspectObject object (inspectObject object s)
             = updateAllHTML (inspectObject object s)).
  { intros s. destruct (inspectObject_facts object s) as (_ & Hobj & _).
    pose proof (resolve_stable object s) as Hres.
    set (s1 := inspectObject object s) in *.
    unfold inspectObject at 1. rewrite Hres.
    destruct (resolve object s) as [o|].
    - assert (Hsame : sameObject (inspectedObject (insp s1)) (Some o) = true)
        by now apply sameObject_true.
      rewrite Hsame, (set_inspectedObject_same _ _ Hobj).
      now rewrite state_eta.
    - rewrite (set_inspectedObject_same _ _ Hobj). now rewrite state_eta. }
  split; [apply Hagain|].
  rewrite (Hagain (inspectObject object st)).
  rewrite Hagain. apply refresh_idempotent.
Qed.

(** X13. With selection tracking on, a selection change that leaves
    nothing selected keeps the rows: no object is inspected any more, the
    rows and the names of the inputs are as before, every input only has
    its value blanked (black for a colour input), and events on the inputs
    change nothing from then on. *)
Theorem selection_cleared (st : State) :
  inspectsSelection (insp st) = true ->
  selection (dia st) = [] ->
  let st' := onChangedSelection st in
  inspectedObject (insp st') = None
  /\ _div (insp st') = _div (insp st)
  /\ keys (_inspectedProperties (insp st'))
     = keys (_inspectedProperties (insp st))
  /\ (forall k inp,
         lookup k (_inspectedProperties (insp st)) = Some inp ->
         lookup k (_inspectedProperties (insp st'))
         = Some (set_value
                   (assigned (in_type inp)
                      (VStr (if String.eqb (in_type inp) "color"
                             then "#000000" else EmptyString)))
                   inp))
  /\ updateAllProperties st' = st'
  /\ forall ev k, dispatch ev k st' = st'.
Proof.
  intros Hsel Hempty. cbv zeta.
  assert (E : onChangedSelection st
              = updateAllHTML
                  (mkState (set_inspectedObject None (insp st)) (dia st)
                           (modified st))).
  { unfold onChangedSelection, inspectObject, resolve, selection_first.
    now rewrite Hsel, Hempty. }
  rewrite E.
  assert (Hcommit : forall s,
             inspectedObject (insp s) = None -> updateAllProperties s = s).
  { intros s Hs. unfold updateAllProperties. now rewrite Hs. }
  split; [reflexivity|]. split; [reflexivity|].
  split.
  { destruct (updateAllHTML_config
                (mkState (set_inspectedObject None (insp st)) (dia st)
                         (modified st))) as (_ & _ & _ & Hk & _).
    exact Hk. }
  split.
  - intros k inp Hinp. rewrite updateAllHTML_inputs.
    cbn [insp dia inspectedObject set_inspectedObject _inspectedProperties
         dataOf].
    rewrite Hinp. cbn [option_map]. unfold refreshed.
    now destruct (String.eqb (in_type inp) "color").
  - split; [now apply Hcommit|].
    intros ev k. unfold dispatch.
    destruct (lookup k _); [|reflexivity].
    destruct (mem ev _); [|reflexivity]. now apply Hcommit.
Qed.

(** X14. In a reachable state an event commits only where
    [buildPropertyRow] registered it: a colour input does not react to
    blur, an input that is not a colour input does not react to input or
    change, a colour input whose declared type is not color reacts to no
    event at all, and no input reacts to any other event. *)
Theorem events_without_listener (st : State) (k : string) (inp : input) :
  reachable st ->
  lookup k (_inspectedProperties (insp st)) = Some inp ->
  (in_type inp = "color" -> dispatch "blur" k st = st)
  /\ (in_type inp <> "color" ->
      dispatch "input" k st = st /\ dispatch "change" k st = st)
  /\ (in_type inp = "color" ->
      declaredType (lookup k (declaredProperties (insp st))) <> "color" ->
      forall ev, dispatch ev k st = st)
  /\ (forall ev,
         ev <> "blur" -> ev <> "input" -> ev <> "change" ->
         dispatch ev k st = st).
Proof.
  intros Hreach Hinp.
  destruct (reachable_rows st Hreach) as [_ Hlisten].
  pose proof (Hlisten k inp Hinp) as Hl. unfold expectedListeners in Hl.
  unfold dispatch. rewrite Hinp, Hl.
  split; [|split; [|split]].
  - intros ->. change (String.eqb "color" "color") with true. cbv iota.
    destruct (String.eqb
                (declaredType (lookup k (declaredProperties (insp st))))
                "color"); reflexivity.
  - intros Hne. destruct (String.eqb_spec (in_type inp) "color");
      [contradiction|]. split; reflexivity.
  - intros -> Hne ev. change (String.eqb "color" "color") with true.
    cbv iota.
    destruct (String.eqb_spec
                (declaredType (lookup k (declaredProperties (insp st))))
                "color"); [contradiction|reflexivity].
  - intros ev Hb Hi Hc.
    assert (Hmem : forall l, (forall e, In e l ->
                                e = "blur" \/ e = "input" \/ e = "change") ->
                             mem ev l = false).
    { intros l Hall. unfold mem.
      destruct (existsb (String.eqb ev) l) eqn:E; [|reflexivity].
      apply existsb_exists in E as [e [He Heq]].
      apply String.eqb_eq in Heq. subst e.
      destruct (Hall ev He) as [?|[?|?]]; contradiction. }
    rewrite Hmem; [reflexivity|].
    intros e He.
    destruct (String.eqb (in_type inp) "color");
      [destruct (String.eqb _ "color")|]; simpl in He; intuition.
Qed.

Lemma canEdit_false_iff d k decProp o r :
  dataOf d (Some o) = Some r ->
  canEditProperty d k decProp o = false
  <-> (exists src, get (records d r) k = VFunction src)
      \/ (exists desc, decProp = Some desc /\ readOnly desc = Flag true)
      \/ (exists desc p,
             decProp = Some desc /\ readOnly desc = Pred p
             /\ p d o k = true).
Proof.
  intros Hr. split.
  - intros H.
    assert (Hcases : (exists src, get (records d r) k = VFunction src)
                     \/ forall src, get (records d r) k <> VFunction src).
    { destruct (get (records d r) k);
        try (right; intros; discriminate). left. eauto. }
    destruct Hcases as [Hf|Hnf]; [left; exact Hf|right].
    unfold canEditProperty in H. rewrite Hr in H.
    destruct (get (records d r) k) eqn:E;
      try (exfalso; eapply Hnf; reflexivity);
      (destruct decProp as [desc|]; [|discriminate H]);
      (destruct (readOnly desc) as [|[|]|pred] eqn:Hro;
       try discriminate H;
       [left; exists desc; auto
       |right; exists desc, pred; apply negb_false_iff in H; auto]).
  - intros [[src Hf]|[(desc & -> & Hro)|(desc & p & -> & Hro & Hp)]].
    + eapply canEdit_function; eauto.
    + now apply canEdit_flag.
    + eapply canEdit_predicate; eauto.
Qed.

(** X15. After a rebuild the input of a row is disabled exactly when the
    stored value is a function, or the readOnly flag of the property is
    true, or its readOnly predicate returns true, or the model is
    read-only; in every other case it is enabled. *)
Theorem disabled_exactly_when (object : argument) (st : State) (o : objref)
        (r : nat) (k : string) (inp : input) :
  resolve object st = Some o ->
  sameObject (inspectedObject (insp st)) (Some o) = false ->
  dataOf (dia st) (Some o) = Some r ->
  lookup k (_inspectedProperties (insp (inspectObject object st))) = Some inp ->
  disabled inp = true
  <-> (exists src, get (records (dia st) r) k = VFunction src)
      \/ (exists desc,
             lookup k (declaredProperties (insp st)) = Some desc
             /\ readOnly desc = Flag true)
      \/ (exists desc p,
             lookup k (declaredProperties (insp st)) = Some desc
             /\ readOnly desc = Pred p
             /\ p (dia st) o k = true)
      \/ isReadOnly (dia st) = true.
Proof.
  intros Hres Hdiff Hdata Hinp.
  rewrite (rebuilt_disabled object st o r k inp Hres Hdiff Hdata Hinp).
  rewrite orb_true_iff, negb_true_iff.
  rewrite (canEdit_false_iff (dia st) k _ o r Hdata). tauto.
Qed.

Lemma loop_inspectsSelection r o l s :
  inspectsSelection (insp (fold_left (commitProperty r o) l s))
  = inspectsSelection (insp s).
Proof.
  revert s. induction l as [|name rest IH]; intros s; simpl; [reflexivity|].
  rewrite IH. unfold commitProperty.
  destruct (lookup name (_inspectedProperties (insp s))); [|reflexivity].
  now destruct (canEditProperty _ _ _ _).
Qed.

(** X16. In a reachable state with the data record present, when a commit
    is followed by the refresh that the model's notification triggers and
    the inspected object is still the one [inspectObject] settles on, each
    row that is not a colour input and was editable at its turn shows the
    text of the value that was written for it. *)
Theorem commit_then_refresh (st : State) (o : objref) (r : nat)
        (pre post : list string) (k : string) (inp : input) :
  reachable st ->
  inspectedObject (insp st) = Some o ->
  dataOf (dia st) (Some o) = Some r ->
  resolve Omitted st = Some o ->
  keys (_inspectedProperties (insp st)) = pre ++ k :: post ->
  lookup k (_inspectedProperties (insp st)) = Some inp ->
  in_type inp <> "color" ->
  canEditProperty
    (dia (fold_left (commitProperty r o) pre
            (withDiagram (startTransaction "set all properties") st)))
    k (lookup k (declaredProperties (insp st))) o = true ->
  let v :=
    convertValue
      (effectiveType (lookup k (declaredProperties (insp st)))
                     (get (records (dia st) r) k))
      (value inp) in
  exists inp',
    lookup k
           (_inspectedProperties
              (insp (onModelChanged true (updateAllProperties st))))
    = Some inp'
    /\ value inp' = assigned (in_type inp) (VStr (convertToString v))
    /\ sameButValue inp inp'.
Proof.
  intros Hreach Ho Hr Hres Hkeys Hinp Hty Hedit. cbv zeta.
  destruct (reachable_rows st Hreach) as [Hnd _].
  pose proof (updateAllProperties_shape st o r Ho Hr) as Hshape.
  destruct (commit_row st o r pre k post Hnd Ho Hr Hkeys)
    as (_ & Hlook & Hfield & Hdecl & Hfinal).
  pose proof (commit_row_input st o r pre k post Hnd Ho Hr Hkeys) as Hrow.
  set (start := withDiagram (startTransaction "set all properties") st) in *.
  set (turn := fold_left (commitProperty r o) pre start) in *.
  set (st1 := updateAllProperties st) in *.
  assert (Hinp1 : lookup k (_inspectedProperties (insp st1))
                  = Some
                      (set_value
                         (assigned (in_type inp)
                            (convertValue
                               (effectiveType
                                  (lookup k (declaredProperties (insp st)))
                                  (get (records (dia st) r) k))
                               (value inp)))
                         inp)).
  { rewrite Hrow.
    rewrite (commitProperty_written_input r o turn k inp)
      by now rewrite Hlook.
    now rewrite Hdecl, Hedit, Hfield. }
  assert (Hget : get (records (dia st1) r) k
                 = convertValue
                     (effectiveType
                        (lookup k (declaredProperties (insp st)))
                        (get (records (dia st) r) k))
                     (value inp)).
  { rewrite Hfinal.
    rewrite (commitProperty_written r o turn k inp);
      [now rewrite Hdecl, Hfield|now rewrite Hlook|now rewrite Hdecl]. }
  destruct (updateAllProperties_config st) as (_ & Hobj1 & _).
  fold st1 in Hobj1.
  assert (Hparts : parts (dia st1) = parts (dia st)
                   /\ selection (dia st1) = selection (dia st)
                   /\ inspectsSelection (insp st1)
                      = inspectsSelection (insp st)).
  { rewrite Hshape.
    cbn [withDiagram dia insp commitTransaction parts selection].
    destruct (loop_diagram r o (keys (_inspectedProperties (insp st))) start)
      as (Hsel & _ & Hp).
    rewrite loop_inspectsSelection. repeat split; assumption. }
  destruct Hparts as (Hparts & Hsel & Hins).
  assert (Hres1 : resolve Omitted st1 = Some o).
  { unfold resolve, selection_first in *. rewrite Hins, Hsel, Hobj1.
    destruct (inspectsSelection (insp st)); [exact Hres|exact Ho]. }
  assert (Hdata1 : fieldsOf (dia st1) (Some o) = Some (records (dia st1) r)).
  { unfold fieldsOf. rewrite (dataOf_parts (dia st)) by exact Hparts.
    now rewrite Hr. }
  assert (Hagain : onModelChanged true st1 = updateAllHTML st1).
  { unfold onModelChanged, inspectObject. rewrite Hres1.
    assert (Hs : sameObject (inspectedObject (insp st1)) (Some o) = true)
      by (apply sameObject_true; now rewrite Hobj1).
    rewrite Hs, set_inspectedObject_same by now rewrite Hobj1.
    now rewrite state_eta. }
  rewrite Hagain. eexists. split; [|split].
  - rewrite updateAllHTML_lookup, Hobj1, Ho, Hdata1, Hinp1. reflexivity.
  - unfold refreshed. cbn [in_type set_value].
    destruct (String.eqb_spec (in_type inp) "color"); [contradiction|].
    cbn [value set_value]. now rewrite Hget.
  - eapply sameButValue_trans; [apply sameButValue_set_value|].
    apply sameButValue_refreshed.
Qed.
End RefreshProperties.

(** ** The catalogue request determines the identifier *)

Lemma append_inj_l (h a b : string) :
  (h ++ a = h ++ b)%string -> a = b.
Proof.
  induction h as [|c h IH]; simpl; [auto|].
  intros [= H]. auto.
Qed.

Lemma length_append (a b : string) :
  String.length (a ++ b) = String.length a + String.length b.
Proof.
  induction a as [|c a IH]; simpl; auto.
Qed.

Lemma append_inj_r (t a b : string) :
  (a ++ t = b ++ t)%string -> a = b.
Proof.
  intros H.
  assert (Hlen : String.length a = String.length b).
  { apply (f_equal String.length) in H. rewrite !length_append in H. lia. }
  revert b H Hlen. induction a as [|c a IH]; intros [|c' b] H Hlen;
    simpl in *; try discriminate; [reflexivity|].
  injection H as -> H. f_equal. apply IH; auto.
Qed.

(** X17. Two different execution identifiers never give the same request
    body. *)
Theorem request_body_injective (endpoint : string) (T : Type)
        (parse : string -> parsing T) (a b : string) :
  a <> b ->
  req_body (fst (getExecutionResults endpoint T parse a))
  <> req_body (fst (getExecutionResults endpoint T parse b)).
Proof.
  intros Hne H. apply Hne. simpl in H. unfold xml in H.
  apply append_inj_l in H. now apply append_inj_r in H.
Qed.

(** ** The further properties at the example scenarios *)

Ltac distinct :=
  evaluate; repeat (apply NoDup_cons; [simpl; intuition discriminate|]);
  apply NoDup_nil.

Lemma array_of_joined_texts_witness :
  exists xs ys,
    convertToArrayOfNumber "1 2" = VArray xs
    /\ convertToArrayOfNumber "3" = VArray ys
    /\ convertToArrayOfNumber ("1 2" ++ " " ++ "3") = VArray (xs ++ ys).
Proof.
  eexists. eexists. split; [run|]. split; [run|].
  apply array_of_joined_texts; run.
Defined.

Lemma nested_arrays_print_flat_witness :
  Forall (fun row : list jsval => row <> [])
         [[VStr "a"]; [VStr "b"; VStr "c"]]
  /\ convertToString
       (VArray (map VArray [[VStr "a"]; [VStr "b"; VStr "c"]]))
     = convertToString (VArray [VStr "a"; VStr "b"; VStr "c"]).
Proof.
  assert (H : Forall (fun row : list jsval => row <> [])
                     [[VStr "a"]; [VStr "b"; VStr "c"]])
    by (repeat constructor; discriminate).
  split; [exact H|]. exact (nested_arrays_print_flat _ H).
Defined.


Lemma refresh_keeps_undeclared_rows_witness :
  exists inp,
    lookup "name"
           (_inspectedProperties (insp (inspectObject Omitted Example.fresh)))
    = Some inp
    /\ lookup "name"
              (_inspectedProperties
                 (insp (updateAllHTML (inspectObject Omitted Example.fresh))))
       = Some inp.
Proof.
  assert (H1 : resolve Omitted Example.fresh = Some (RPart 1)) by run.
  assert (H2 : sameObject (inspectedObject (insp Example.fresh))
                          (Some (RPart 1)) = false) by run.
  assert (H3 : dataOf (dia Example.fresh) (Some (RPart 1)) = Some 0) by run.
  assert (H4 : NoDup (keys (declaredProperties (insp Example.fresh))))
    by distinct.
  assert (H5 : NoDup (keys (records (dia Example.fresh) 0))) by distinct.
  assert (H6 : lookup "name" (declaredProperties (insp Example.fresh))
               = None) by run.
  assert (H7 : exists inp,
             lookup "name"
                    (_inspectedProperties
                       (insp (inspectObject Omitted Example.fresh)))
             = Some inp) by (eexists; run).
  destruct H7 as [inp H7]. exists inp. split; [exact H7|].
  exact (refresh_keeps_undeclared_rows Omitted Example.fresh (RPart 1) 0
           "name" inp H1 H2 H3 H4 H5 H6 H7).
Defined.

Lemma default_shown_until_refresh_witness :
  lookup "note" (declaredProperties (insp Sample.fresh))
  = Some Sample.noteDesc
  /\ get (records (dia Sample.fresh) 0) "note" = VUndefined
  /\ exists inp inp',
      lookup "note"
             (_inspectedProperties
                (insp (inspectObject (Obj (RData 0)) Sample.fresh)))
      = Some inp
      /\ value inp = "n/a"
      /\ lookup "note"
                (_inspectedProperties
                   (insp (updateAllHTML
                            (inspectObject (Obj (RData 0)) Sample.fresh))))
         = Some inp'
      /\ value inp' = "undefined".
Proof.
  assert (H1 : resolve (Obj (RData 0)) Sample.fresh = Some (RData 0)) by run.
  assert (H2 : sameObject (inspectedObject (insp Sample.fresh))
                          (Some (RData 0)) = false) by run.
  assert (H3 : dataOf (dia Sample.fresh) (Some (RData 0)) = Some 0) by run.
  assert (H4 : NoDup (keys (declaredProperties (insp Sample.fresh))))
    by distinct.
  assert (H5 : NoDup (keys (records (dia Sample.fresh) 0))) by distinct.
  assert (H6 : lookup "note" (declaredProperties (insp Sample.fresh))
               = Some Sample.noteDesc) by run.
  assert (H7 : type Sample.noteDesc = Some "string") by run.
  assert (H8 : mem "string" textTypes = true) by run.
  assert (H9 : canShowProperty (dia Sample.fresh) "note" Sample.noteDesc
                               (RData 0) = true) by run.
  assert (H10 : get (records (dia Sample.fresh) 0) "note" = VUndefined)
    by run.
  pose proof (default_shown_until_refresh (Obj (RData 0)) Sample.fresh
                (RData 0) 0 "note" Sample.noteDesc "string"
                H1 H2 H3 H4 H5 H6 H7 H8 H9 H10) as H.
  cbv zeta in H. destruct H as (inp & Hinp & Hval & inp' & Hinp' & Hval').
  split; [exact H6|]. split; [exact H10|].
  exists inp, inp'. split; [exact Hinp|]. split; [rewrite Hval; run|].
  split; [exact Hinp'|]. rewrite Hval'. run.
Defined.


Lemma untyped_value_becomes_text_witness :
  reachable Sample.shown
  /\ get (records (dia Sample.shown) 0) "tags"
     = VArray [VStr "x"; VStr "y"]
  /\ get (records (dia (updateAllProperties Sample.shown)) 0) "tags"
     = VStr "x y".
Proof.
  assert (H1 : reachable Sample.shown) by (apply reach_inspect, reach_new).
  assert (H2 : inspectedObject (insp Sample.shown) = Some (RData 0)) by run.
  assert (H3 : dataOf (dia Sample.shown) (Some (RData 0)) = Some 0) by run.
  assert (H4 : exists inp,
             lookup "tags" (_inspectedProperties (insp Sample.shown))
             = Some inp /\ value inp = "x y") by (eexists; split; run).
  destruct H4 as [inp [H4 Hval]].
  assert (H5 : lookup "tags" (declaredProperties (insp Sample.shown)) = None)
    by run.
  assert (H6 : get (records (dia Sample.shown) 0) "tags"
               = VArray [VStr "x"; VStr "y"]) by run.
  assert (H7 : inferType (get (records (dia Sample.shown) 0) "tags")
               = EmptyString) by (rewrite H6; reflexivity).
  assert (H8 : forall src,
             get (records (dia Sample.shown) 0) "tags" <> VFunction src)
    by (intros src; rewrite H6; discriminate).
  pose proof (untyped_value_becomes_text Sample.shown (RData 0) 0 "tags" inp
                H1 H2 H3 H4 H5 H7 H8) as H.
  cbv zeta in H. destruct H as [_ Hget].
  split; [exact H1|]. split; [exact H6|]. now rewrite Hget, Hval.
Defined.

Lemma falsy_value_shown_empty_witness :
  get (records (dia Sample.fresh) 0) "done" = VBool false
  /\ assigned "text" (VStr EmptyString) = EmptyString
  /\ get (records
            (dia (updateAllProperties
                    (inspectObject (Obj (RData 0)) Sample.fresh))) 0) "done"
     = VBool true.
Proof.
  assert (H1 : resolve (Obj (RData 0)) Sample.fresh = Some (RData 0)) by run.
  assert (H2 : sameObject (inspectedObject (insp Sample.fresh))
                          (Some (RData 0)) = false) by run.
  assert (H3 : dataOf (dia Sample.fresh) (Some (RData 0)) = Some 0) by run.
  assert (H4 : NoDup (keys (declaredProperties (insp Sample.fresh))))
    by distinct.
  assert (H5 : NoDup (keys (records (dia Sample.fresh) 0))) by distinct.
  assert (H6 : lookup "done" (declaredProperties (insp Sample.fresh))
               = Some Sample.doneDesc) by run.
  assert (H7 : type Sample.doneDesc = Some "boolean") by run.
  assert (H8 : mem "boolean" textTypes = true) by run.
  assert (H9 : readOnly Sample.doneDesc = Unset) by run.
  assert (H10 : canShowProperty (dia Sample.fresh) "done" Sample.doneDesc
                                (RData 0) = true) by run.
  assert (H11 : get (records (dia Sample.fresh) 0) "done" = VBool false)
    by run.
  assert (H12 : is_undefined (get (records (dia Sample.fresh) 0) "done")
                = false) by (rewrite H11; reflexivity).
  assert (H13 : truthy (get (records (dia Sample.fresh) 0) "done") = false)
    by (rewrite H11; reflexivity).
  assert (H14 : assigned "text" (VStr EmptyString) = EmptyString) by run.
  pose proof (falsy_value_shown_empty (Obj (RData 0)) Sample.fresh (RData 0)
                0 "done" Sample.doneDesc "boolean"
                H1 H2 H3 H4 H5 H6 H7 H8 H9 H10 H12 H13 H14) as H.
  cbv zeta in H. destruct H as (_ & _ & Hget & Htrue).
  split; [exact H11|]. split; [exact H14|].
  rewrite Hget. exact (Htrue eq_refl).
Defined.

Lemma selection_cleared_witness :
  inspectsSelection (insp Sample.deselected) = true
  /\ selection (dia Sample.deselected) = []
  /\ inspectedObject (insp (onChangedSelection Sample.deselected)) = None
  /\ _div (insp (onChangedSelection Sample.deselected))
     = _div (insp Sample.deselected).
Proof.
  assert (H1 : inspectsSelection (insp Sample.deselected) = true) by run.
  assert (H2 : selection (dia Sample.deselected) = []) by run.
  pose proof (selection_cleared Sample.deselected H1 H2) as H.
  cbv zeta in H. destruct H as (Hobj & Hdiv & _).
  split; [exact H1|]. split; [exact H2|]. split; [exact Hobj|exact Hdiv].
Defined.

Lemma events_without_listener_witness :
  reachable Example.shown
  /\ exists inp,
      lookup "fill" (_inspectedProperties (insp Example.shown)) = Some inp
      /\ in_type inp = "color"
      /\ dispatch "blur" "fill" Example.shown = Example.shown.
Proof.
  assert (H1 : reachable Example.shown) by (apply reach_inspect, reach_new).
  assert (H2 : exists inp,
             lookup "fill" (_inspectedProperties (insp Example.shown))
             = Some inp /\ in_type inp = "color") by (eexists; split; run).
  destruct H2 as [inp [H2 Hty]].
  destruct (events_without_listener Example.shown "fill" inp H1 H2)
    as (Hblur & _).
  split; [exact H1|]. exists inp. split; [exact H2|]. split; [exact Hty|].
  exact (Hblur Hty).
Defined.

Lemma disabled_exactly_when_witness :
  exists inp,
    lookup "name"
           (_inspectedProperties (insp (inspectObject Omitted Example.fresh)))
    = Some inp
    /\ disabled inp = false.
Proof.
  assert (H1 : resolve Omitted Example.fresh = Some (RPart 1)) by run.
  assert (H2 : sameObject (inspectedObject (insp Example.fresh))
                          (Some (RPart 1)) = false) by run.
  assert (H3 : dataOf (dia Example.fresh) (Some (RPart 1)) = Some 0) by run.
  assert (H4 : exists inp,
             lookup "name"
                    (_inspectedProperties
                       (insp (inspectObject Omitted Example.fresh)))
             = Some inp) by (eexists; run).
  destruct H4 as [inp H4]. exists inp. split; [exact H4|].
  pose proof (disabled_exactly_when Omitted Example.fresh (RPart 1) 0 "name"
                inp H1 H2 H3 H4) as H.
  destruct (disabled inp) eqn:E; [|reflexivity].
  exfalso. destruct (proj1 H eq_refl)
    as [[src Hf]|[(desc & Hd & _)|[(desc & p & Hd & _)|Hm]]].
  - cbv -[smallPlatform] in Hf. discriminate Hf.
  - cbv -[smallPlatform] in Hd. discriminate Hd.
  - cbv -[smallPlatform] in Hd. discriminate Hd.
  - cbv -[smallPlatform] in Hm. discriminate Hm.
Defined.

Lemma commit_then_refresh_witness :
  reachable Sample.shown
  /\ exists inp',
      lookup "done"
             (_inspectedProperties
                (insp (onModelChanged true
                         (updateAllProperties Sample.shown))))
      = Some inp'
      /\ value inp' = "true".
Proof.
  assert (H1 : reachable Sample.shown) by (apply reach_inspect, reach_new).
  assert (H2 : inspectedObject (insp Sample.shown) = Some (RData 0)) by run.
  assert (H3 : dataOf (dia Sample.shown) (Some (RData 0)) = Some 0) by run.
  assert (H4 : resolve Omitted Sample.shown = Some (RData 0)) by run.
  assert (H5 : keys (_inspectedProperties (insp Sample.shown))
               = ["note"] ++ "done" :: ["name"; "tags"]) by run.
  assert (H6 : exists inp,
             lookup "done" (_inspectedProperties (insp Sample.shown))
             = Some inp
             /\ in_type inp = "text" /\ value inp = EmptyString)
    by (eexists; split; [run|split; run]).
  destruct H6 as [inp (H6 & Hty & Hval)].
  assert (H7 : in_type inp <> "color") by (rewrite Hty; discriminate).
  assert (H8 : canEditProperty
                 (dia (fold_left (commitProperty 0 (RData 0)) ["note"]
                         (withDiagram
                            (startTransaction "set all properties")
                            Sample.shown)))
                 "done"
                 (lookup "done" (declaredProperties (insp Sample.shown)))
                 (RData 0) = true) by run.
  pose proof (commit_then_refresh Sample.shown (RData 0) 0 ["note"]
                ["name"; "tags"] "done" inp H1 H2 H3 H4 H5 H6 H7 H8) as H.
  cbv zeta in H. destruct H as (inp' & Hinp' & Hval' & _).
  split; [exact H1|]. exists inp'. split; [exact Hinp'|].
  rewrite Hval', Hval, Hty. run.
Defined.

Lemma request_body_injective_witness :
  "abc123" <> "abc124"
  /\ req_body (fst (getExecutionResults "http://repository/" string
                      Example.callbackParser "abc123"))
     <> req_body (fst (getExecutionResults "http://repository/" string
                         Example.callbackParser "abc124")).
Proof.
  assert (H : "abc123" <> "abc124") by discriminate.
  split; [exact H|]. now apply request_body_injective.
Defined.
